(** * Member retrieval helpers of discordeno: [helpers/guild.ts]

    A shallow embedding of the three member-retrieval entry points of
    [helpers/guild.ts] -- the gateway request [fetchMembers], the
    query variant [getMembersByQuery] and the REST pagination [getMembers] --
    together with the later revision of [fetchMembers] that takes a guild id
    and a shard id.

    Modelling conventions.
    - JavaScript numbers that the code uses as counts, limits and bit masks
      are integers of [Z]; [undefined] is [None].
    - An optional argument ([options?: T]) is an [option T]; the optional
      chain [options?.limit] is the bind [options ≫= limit].
    - A function that may [throw] returns a [Completion]; what it does to the
      outside world (calls of [requestAllMembers], REST requests, cache
      writes, console lines) is recorded in an explicit world state.
    - [Collection] extends the JavaScript [Map]: an insertion-ordered
      association list whose [set] replaces the value of a key that is
      already present, in place.
    - The REST dispatcher ([rest/request_manager.ts]), the cache handlers
      ([cache.ts]), the member structure factory ([structures/mod.ts]) and
      the [Intents] enumeration ([types/mod.ts]) are other modules of the
      library; they are parameters of the development.
    - [await] is sequencing: the helpers wait for each collaborator before
      they go on, and the collaborators are taken to resolve. *)

From Stdlib Require Import ZArith Lia.
From stdpp Require Import gmap strings list pretty.

Local Open Scope Z_scope.

(** ** JavaScript operators on the values the helpers handle *)

Module JS.

(** [!!n] for a number: every number but [0] is truthy. *)
Definition truthy_number (n : Z) : bool := negb (n =? 0).

(** [!!s] for a string: every string but the empty one is truthy. *)
Definition truthy_string (s : string) : bool :=
  match s with
  | EmptyString => false
  | String _ _ => true
  end.

(** [!!o] for an optional number ([undefined] is falsy). *)
Definition truthy_opt_number (o : option Z) : bool :=
  match o with
  | Some n => truthy_number n
  | None => false
  end.

(** [!!o] for an optional string. *)
Definition truthy_opt_string (o : option string) : bool :=
  match o with
  | Some s => truthy_string s
  | None => false
  end.

(** [a && b] on numbers: the logical conjunction yields [a] when [a] is
    falsy and [b] otherwise.  It is not the bitwise [a & b]. *)
Definition and_number (a b : Z) : Z := if truthy_number a then b else a.

(** [a & b] on numbers, for comparison with [and_number]. *)
Definition bitand_number (a b : Z) : Z := Z.land a b.

(** [o > n] where [o] may be [undefined]: [undefined > n] is [false]. *)
Definition opt_gt (o : option Z) (n : Z) : bool :=
  match o with
  | Some m => n <? m
  | None => false
  end.

(** [o ?? d]: only [undefined] is replaced, a given [0] stays. *)
Definition nullish {A} (o : option A) (d : A) : A :=
  match o with
  | Some a => a
  | None => d
  end.

(** [Math.ceil(n / d)] for integers [n] and a positive integer [d]. *)
Definition ceil_div (n d : Z) : Z := - ((- n) / d).

End JS.

(** ** Data *)

(** [Errors], the two members the helpers throw. *)
Inductive Errors : Set :=
| MISSING_INTENT_GUILD_MEMBERS
| GUILD_NOT_FOUND.

(** The outcome of running a function body: a value or a thrown error. *)
Inductive Completion (A : Type) : Type :=
| Return (a : A)
| Throw (e : Errors).

Arguments Return {A} a.
Arguments Throw {A} e.

(** The part of [identifyPayload] the helpers read. *)
Record IdentifyPayload := { intents : Z }.

(** The part of the [Guild] structure the helpers read. *)
Module Guild.
Record t := { id : string; memberCount : Z }.
End Guild.

(** [FetchMembersOptions] ([RequestGuildMembers] in the later revision). *)
Module FetchMembersOptions.
Record t := {
  limit : option Z;
  userIDs : option (list string);
  query : option string
}.

(** [options.limit = n]. *)
Definition set_limit (n : Z) (o : t) : t :=
  {| limit := Some n; userIDs := userIDs o; query := query o |}.
End FetchMembersOptions.

(** [GetMemberOptions].  [getMembers] reads [limit] and [after] only; [force]
    stands for the property of that name that a caller may put on the object
    it passes (the sibling [getMember] reads it), so that statements about it
    can be written. *)
Module GetMemberOptions.
Record t := {
  limit : option Z;
  after : option string;
  force : option bool
}.
End GetMemberOptions.

(** One invocation of [requestAllMembers(guild, resolve, options)] of
    [ws/shard_manager.ts].  The [resolve] callback is the one of the promise
    that the caller gets back, so it is not recorded. *)
Record RequestAllMembersCall := {
  call_guild : Guild.t;
  call_options : option FetchMembersOptions.t
}.

(** The promise that [fetchMembers] and [getMembersByQuery] return: it stays
    pending until the shard manager resolves it. *)
Inductive Promise : Set := PendingMembers.

(** What a call of [fetchMembers] leaves behind: the caller's [options]
    object (the function assigns to its [limit] property) and the calls of
    [requestAllMembers] made so far. *)
Record GatewayWorld := {
  caller_options : option FetchMembersOptions.t;
  gateway_calls : list RequestAllMembersCall
}.

(** ** [fetchMembers] and [getMembersByQuery] *)

Section Gateway.

(** [Intents.GUILD_MEMBERS] of [types/mod.ts]. *)
Variable GUILD_MEMBERS : Z.

(** The guard's second conjunct,
    [!(identifyPayload.intents && Intents.GUILD_MEMBERS)]. *)
Definition intent_missing (identifyPayload : IdentifyPayload) : bool :=
  negb (JS.truthy_number (JS.and_number (intents identifyPayload) GUILD_MEMBERS)).

(** The guard's first conjunct, [!options?.limit || options.limit > 1]. *)
Definition limit_needs_intent (options : option FetchMembersOptions.t) : bool :=
  negb (JS.truthy_opt_number (options ≫= FetchMembersOptions.limit))
  || JS.opt_gt (options ≫= FetchMembersOptions.limit) 1.

(** The statement
    [if (options?.userIDs?.length) options.limit = options.userIDs.length]:
    the assignment runs when there are options, they have a list of user
    ids, and its length is not [0]. *)
Definition override_limit (options : option FetchMembersOptions.t)
  : option FetchMembersOptions.t :=
  match options with
  | Some o =>
      match FetchMembersOptions.userIDs o with
      | Some ids =>
          if JS.truthy_number (Z.of_nat (length ids))
          then Some (FetchMembersOptions.set_limit (Z.of_nat (length ids)) o)
          else options
      | None => options
      end
  | None => options
  end.

(** [fetchMembers(guild, options)], lines 547-563 of [guild.ts].  [calls]
    are the earlier invocations of [requestAllMembers]. *)
Definition fetchMembers (identifyPayload : IdentifyPayload)
    (calls : list RequestAllMembersCall)
    (guild : Guild.t) (options : option FetchMembersOptions.t)
  : Completion Promise * GatewayWorld :=
  if limit_needs_intent options && intent_missing identifyPayload then
    (Throw MISSING_INTENT_GUILD_MEMBERS,
     {| caller_options := options; gateway_calls := calls |})
  else
    let options := override_limit options in
    (Return PendingMembers,
     {| caller_options := options;
        gateway_calls :=
          calls ++ [ {| call_guild := guild; call_options := options |} ] |}).

End Gateway.

(** ** The later revision of [fetchMembers]

    [fetchMembers(guildId, shardId, options)] with [RequestGuildMembers]
    options.  There [requestAllMembers] is a local placeholder whose
    body is [throw new Error("Function not implemented.")]; it runs inside
    the promise executor, so the promise that comes back is a rejected one. *)

Module Revision.

Module RequestGuildMembers.
Record t := {
  limit : option Z;
  userIds : option (list string);
  query : option string
}.

Definition set_limit (n : Z) (o : t) : t :=
  {| limit := Some n; userIds := userIds o; query := query o |}.
End RequestGuildMembers.

Record RequestAllMembersCall := {
  call_guildId : string;
  call_shardId : Z;
  call_options : option RequestGuildMembers.t
}.

(** The promise of this revision: the executor has thrown. *)
Inductive Promise : Set := RejectedNotImplemented.

Record GatewayWorld := {
  caller_options : option RequestGuildMembers.t;
  gateway_calls : list RequestAllMembersCall
}.

Section Gateway.

(** [DiscordGatewayIntents.GUILD_MEMBERS]. *)
Variable GUILD_MEMBERS : Z.

Definition intent_missing (identifyPayload : IdentifyPayload) : bool :=
  negb (JS.truthy_number (JS.and_number (intents identifyPayload) GUILD_MEMBERS)).

Definition limit_needs_intent (options : option RequestGuildMembers.t) : bool :=
  negb (JS.truthy_opt_number (options ≫= RequestGuildMembers.limit))
  || JS.opt_gt (options ≫= RequestGuildMembers.limit) 1.

Definition override_limit (options : option RequestGuildMembers.t)
  : option RequestGuildMembers.t :=
  match options with
  | Some o =>
      match RequestGuildMembers.userIds o with
      | Some ids =>
          if JS.truthy_number (Z.of_nat (length ids))
          then Some (RequestGuildMembers.set_limit (Z.of_nat (length ids)) o)
          else options
      | None => options
      end
  | None => options
  end.

Definition fetchMembers (identifyPayload : IdentifyPayload)
    (calls : list RequestAllMembersCall)
    (guildId : string) (shardId : Z) (options : option RequestGuildMembers.t)
  : Completion Promise * GatewayWorld :=
  if limit_needs_intent options && intent_missing identifyPayload then
    (Throw MISSING_INTENT_GUILD_MEMBERS,
     {| caller_options := options; gateway_calls := calls |})
  else
    let options := override_limit options in
    (Return RejectedNotImplemented,
     {| caller_options := options;
        gateway_calls :=
          calls ++ [ {| call_guildId := guildId; call_shardId := shardId;
                        call_options := options |} ] |}).

End Gateway.

End Revision.

(** ** The REST side: cache, collection, dispatcher *)

(** [Collection<string, Member>]: a [Map], in insertion order. *)
Module Collection.
Section Collection.
Context {V : Type}.

Definition t := list (string * V).

Definition empty : t := [].

(** [collection.set(k, v)]: a key that is present keeps its place and
    gets the new value, a new key goes last. *)
Fixpoint set (k : string) (v : V) (c : t) : t :=
  match c with
  | [] => [(k, v)]
  | (k', v') :: c' =>
      if decide (k = k') then (k, v) :: c' else (k', v') :: set k v c'
  end.

(** [collection.get(k)]. *)
Fixpoint get (k : string) (c : t) : option V :=
  match c with
  | [] => None
  | (k', v') :: c' => if decide (k = k') then Some v' else get k c'
  end.

(** [collection.size]. *)
Definition size (c : t) : Z := Z.of_nat (length c).

Definition keys (c : t) : list string := map fst c.
End Collection.
Arguments t V : clear implicits.
End Collection.

(** The query the pagination sends:
    [GUILD_MEMBERS(guildID) ?limit=<query_limit> &after=<query_after>], the
    [after] parameter being left out when [query_after] is [None]. *)
Record MembersRequest := {
  route_guildID : string;
  query_limit : Z;
  query_after : option string
}.

Section Members.

(** [Intents.GUILD_MEMBERS] of [types/mod.ts]. *)
Variable GUILD_MEMBERS : Z.

(** The member payload of the REST API and the member structure, with
    [structures.createMemberStruct(payload, guildID)] and the [id] property
    of the structure it builds. *)
Context {MemberCreatePayload Member : Type}.
Variable createMemberStruct : MemberCreatePayload → string → Member.
Variable member_id : Member → string.

(** The REST dispatcher seen from one caller: [RequestManager.get] answers
    a members query with a page of payloads and moves to its next state.
    Requests are taken to resolve; a rejected request would leave
    [getMembers] as the same rejection. *)
Context {RestState : Type}.
Variable RequestManager_get :
  RestState → MembersRequest → list MemberCreatePayload * RestState.

(** The store behind [cacheHandlers]: the tables ["guilds"] and
    ["members"], with [get] as lookup and [set] as insertion. *)
Record Cache := {
  cached_guilds : gmap string Guild.t;
  cached_members : gmap string Member
}.

Definition cache_set_member (c : Cache) (m : Member) : Cache :=
  {| cached_guilds := cached_guilds c;
     cached_members := <[member_id m := m]> (cached_members c) |}.

(** What [getMembers] does to the outside, in program order. *)
Inductive Event : Type :=
| ConsoleLog (loops total : Z)
| RestGet (request : MembersRequest)
| CacheSet (key : string) (value : Member)
| MembersSet (key : string) (value : Member).

Record World := {
  cache : Cache;
  rest : RestState;
  trace : list Event
}.

Definition emit (evs : list Event) (w : World) : World :=
  {| cache := cache w; rest := rest w; trace := trace w ++ evs |}.

(** [getMembersByQuery(guildID, name, limit = 1)], lines 302-313. *)
Definition getMembersByQuery (c : Cache) (calls : list RequestAllMembersCall)
    (guildID name : string) (limit : option Z)
  : Completion (option Promise) * list RequestAllMembersCall :=
  match cached_guilds c !! guildID with
  | None => (Return None, calls)
  | Some guild =>
      (Return (Some PendingMembers),
       calls ++ [ {| call_guild := guild;
                     call_options :=
                       Some {| FetchMembersOptions.limit := Some (JS.nullish limit 1);
                               FetchMembersOptions.userIDs := None;
                               FetchMembersOptions.query := Some name |} |} ])
  end.

(** *** [getMembers], lines 573-633 *)

(** The variables of the loop. *)
Record Locals := {
  options : option GetMemberOptions.t;
  members : Collection.t Member;
  membersLeft : Z;
  loops : Z
}.

(** The [while] condition. *)
Definition loop_cond (guild : Guild.t) (l : Locals) : bool :=
  (Collection.size (members l)
     <? JS.nullish (options l ≫= GetMemberOptions.limit) (Guild.memberCount guild))
  && (0 <? membersLeft l).

(** The query of one iteration. *)
Definition page_request (guildID : string) (l : Locals) : MembersRequest :=
  {| route_guildID := guildID;
     query_limit := if 1000 <? membersLeft l then 1000 else membersLeft l;
     query_after :=
       if JS.truthy_opt_string (options l ≫= GetMemberOptions.after)
       then options l ≫= GetMemberOptions.after else None |}.

(** The [console.log] of an iteration, when the limit exceeds 1000. *)
Definition page_log (l : Locals) : list Event :=
  let limit := options l ≫= GetMemberOptions.limit in
  if JS.truthy_opt_number limit && JS.opt_gt limit 1000
  then [ConsoleLog (loops l) (JS.ceil_div (JS.nullish limit 1) 1000)]
  else [].

(** [Promise.all(result.map(...))]: every payload becomes a structure and
    is stored in the members cache, in the order of the page. *)
Definition store_page (memberStructures : list Member) (w : World) : World :=
  {| cache := foldl cache_set_member (cache w) memberStructures;
     rest := rest w;
     trace := trace w ++ map (λ m, CacheSet (member_id m) m) memberStructures |}.

(** [memberStructures.forEach((member) => members.set(member.id, member))]. *)
Definition merge_page (memberStructures : list Member) (c : Collection.t Member)
  : Collection.t Member :=
  foldl (λ c m, Collection.set (member_id m) m c) c memberStructures.

(** One run of the loop body: [None] for [break], the next values of the
    variables otherwise. *)
Definition loop_body (guildID : string) (l : Locals) (w : World)
  : option Locals * World :=
  let w := emit (page_log l) w in
  let request := page_request guildID l in
  let '(result, rest') := RequestManager_get (rest w) request in
  let w := {| cache := cache w; rest := rest'; trace := trace w ++ [RestGet request] |} in
  let memberStructures := map (λ member, createMemberStruct member guildID) result in
  let w := store_page memberStructures w in
  match last memberStructures with
  | None => (None, w)
  | Some last_member =>
      (Some {| options :=
                 Some {| GetMemberOptions.limit := options l ≫= GetMemberOptions.limit;
                         GetMemberOptions.after := Some (member_id last_member);
                         GetMemberOptions.force := None |};
               members := merge_page memberStructures (members l);
               membersLeft := membersLeft l - 1000;
               loops := loops l + 1 |},
       emit (map (λ m, MembersSet (member_id m) m) memberStructures) w)
  end.

(** The [while] loop; [None] when [fuel] iterations were not enough. *)
Fixpoint while_loop (fuel : nat) (guildID : string) (guild : Guild.t)
    (l : Locals) (w : World) : option (Locals * World) :=
  if loop_cond guild l then
    match fuel with
    | O => None
    | S fuel =>
        match loop_body guildID l w with
        | (None, w) => Some (l, w)
        | (Some l, w) => while_loop fuel guildID guild l w
        end
    end
  else Some (l, w).

(** Iterations that suffice for a loop that starts with [membersLeft]. *)
Definition loop_fuel (membersLeft : Z) : nat := Z.to_nat (membersLeft / 1000 + 1).

Definition getMembers (identifyPayload : IdentifyPayload)
    (guildID : string) (options : option GetMemberOptions.t) (w : World)
  : option (Completion (Collection.t Member) * World) :=
  if intent_missing GUILD_MEMBERS identifyPayload then
    Some (Throw MISSING_INTENT_GUILD_MEMBERS, w)
  else
    match cached_guilds (cache w) !! guildID with
    | None => Some (Throw GUILD_NOT_FOUND, w)
    | Some guild =>
        let membersLeft :=
          JS.nullish (options ≫= GetMemberOptions.limit) (Guild.memberCount guild) in
        '(l, w) ← while_loop (loop_fuel membersLeft) guildID guild
                    {| options := options; members := Collection.empty;
                       membersLeft := membersLeft; loops := 1 |} w;
        Some (Return (members l), w)
    end.

End Members.

Arguments Cache Member : clear implicits.
Arguments Event Member : clear implicits.
Arguments World Member RestState : clear implicits.
Arguments Locals Member : clear implicits.

(** ** Concrete collaborators, to run the helpers on *)

Module Sample.

(** The value of [Intents.GUILD_MEMBERS] in Discord's gateway
    documentation, [1 << 1]; [GUILDS] is [1 << 0]. *)
Definition GUILD_MEMBERS : Z := Z.shiftl 1 1.
Definition GUILDS : Z := Z.shiftl 1 0.

Record Payload := { user_id : string; nick : string }.
Record Member := { id : string; guildID : string; name : string }.

Definition createMemberStruct (p : Payload) (guildID : string) : Member :=
  {| id := user_id p; guildID := guildID; name := nick p |}.

(** A dispatcher that plays a script: it answers the n-th query with the
    n-th page of its state, and with an empty page once the script is
    over. *)
Definition scripted (s : list (list Payload)) (r : MembersRequest)
  : list Payload * list (list Payload) :=
  match s with
  | [] => ([], [])
  | page :: s => (page, s)
  end.

(** A dispatcher over a guild of unboundedly many members with the ids
    [1, 2, 3, ...]: it answers a query with as many members as asked for,
    in ascending order, starting from its state. *)
Definition numbered (n : nat) : Payload :=
  {| user_id := pretty n; nick := "member" |}.

Definition obedient (next : nat) (r : MembersRequest) : list Payload * nat :=
  let k := Z.to_nat (query_limit r) in
  (map numbered (seq next k), (next + k)%nat).

Definition guild (n : Z) : Guild.t := {| Guild.id := "g"; Guild.memberCount := n |}.

Definition cache_of (n : Z) : Cache Member :=
  {| cached_guilds := {[ "g" := guild n ]}; cached_members := ∅ |}.

Definition world {S} (n : Z) (s : S) : World Member S :=
  {| cache := cache_of n; rest := s; trace := [] |}.

Definition no_options : GetMemberOptions.t :=
  {| GetMemberOptions.limit := None; GetMemberOptions.after := None;
     GetMemberOptions.force := None |}.

End Sample.

(** ** Vocabulary of the specification *)

(** The effective limit of a [fetchMembers] call: the limit its request
    carries, once a list of user ids has overridden the caller's. *)
Definition effective_limit (options : option FetchMembersOptions.t) : option Z :=
  override_limit options ≫= FetchMembersOptions.limit.

(** The granted intents contain the capability bit [bit]. *)
Definition intent_granted (bit : Z) (identifyPayload : IdentifyPayload) : bool :=
  negb (JS.bitand_number (intents identifyPayload) bit =? 0).

(** The number a snowflake id denotes: its decimal digits, most significant
    first. *)
Definition digit (c : Ascii.ascii) : N :=
  let n := Ascii.N_of_ascii c in
  if ((48 <=? n) && (n <=? 57))%N then (n - 48)%N else 0%N.

Fixpoint snowflake_from (acc : N) (s : string) : N :=
  match s with
  | EmptyString => acc
  | String c s => snowflake_from (acc * 10 + digit c)%N s
  end.

Definition snowflake (s : string) : N := snowflake_from 0 s.

Section Pagination.

Context {MemberCreatePayload Member : Type}.
Variable createMemberStruct : MemberCreatePayload → string → Member.
Variable member_id : Member → string.
Context {RestState : Type}.
Variable RequestManager_get :
  RestState → MembersRequest → list MemberCreatePayload * RestState.

(** [k] is the id of a member of [page], and no member of [page] has a
    higher one. *)
Definition highest_id (page : list Member) (k : string) : Prop :=
  (∃ m, m ∈ page ∧ member_id m = k)
  ∧ ∀ m, m ∈ page → (snowflake (member_id m) <= snowflake k)%N.

(** [page] is in ascending order of id. *)
Definition ascending (page : list Member) : Prop :=
  ∀ (i j : nat) m m', (i < j)%nat → page !! i = Some m → page !! j = Some m' →
    (snowflake (member_id m) <= snowflake (member_id m'))%N.

(** The [after] parameter that a query carries when the cursor is [after]:
    an empty string is falsy and is left out like a missing one. *)
Definition sent_after (after : option string) : option string :=
  if JS.truthy_opt_string after then after else None.

(** One round trip of the pagination: the console line if any, the query,
    and the members of the page that came back. *)
Record Iteration := {
  it_log : list (Event Member);
  it_request : MembersRequest;
  it_page : list Member
}.

(** The events of a round trip: the query, then every member of the page
    stored in the cache, then every member of the page put in the
    collection. *)
Definition iteration_events (it : Iteration) : list (Event Member) :=
  it_log it
  ++ RestGet (it_request it)
  :: map (λ m, CacheSet (member_id m) m) (it_page it)
  ++ map (λ m, MembersSet (member_id m) m) (it_page it).

(** The pages are the dispatcher's answers to the queries, one after the
    other from state [s]. *)
Fixpoint served (guildID : string) (s : RestState) (its : list Iteration) : Prop :=
  match its with
  | [] => True
  | it :: its =>
      it_page it
      = map (λ member, createMemberStruct member guildID)
            (RequestManager_get s (it_request it)).1
      ∧ served guildID (RequestManager_get s (it_request it)).2 its
  end.

(** The page that the iteration starting at [l] in [w] fetches, and the
    round trip it makes. *)
Definition fetched_page (guildID : string) (l : Locals Member)
    (w : World Member RestState) : list Member :=
  map (λ member, createMemberStruct member guildID)
      (RequestManager_get (rest w) (page_request guildID l)).1.

Definition fetched_iteration (guildID : string) (l : Locals Member)
    (w : World Member RestState) : Iteration :=
  {| it_log := page_log l;
     it_request := page_request guildID l;
     it_page := fetched_page guildID l w |}.

(** The variables after a page that is not empty. *)
Definition next_locals (l : Locals Member) (page : list Member) : Locals Member :=
  {| options :=
       Some {| GetMemberOptions.limit := options l ≫= GetMemberOptions.limit;
               GetMemberOptions.after := member_id <$> last page;
               GetMemberOptions.force := None |};
     members := merge_page member_id page (members l);
     membersLeft := membersLeft l - 1000;
     loops := loops l + 1 |}.

(** The count at which the loop has enough: the requested limit, or the
    guild's known member count when no limit was given. *)
Definition target (guild : Guild.t) (l : Locals Member) : Z :=
  JS.nullish (options l ≫= GetMemberOptions.limit) (Guild.memberCount guild).

(** The pagination as the specification words it: from the variables [l] the
    round trips [its] lead to the variables at which the loop ends.  It ends
    at the first of: the collection has reached the target, nothing is left
    to fetch, the page that came back is empty. *)
Inductive Paginates (guildID : string) (guild : Guild.t)
  : Locals Member → list Iteration → Locals Member → Prop :=
| Paginates_reached l :
    target guild l <= Collection.size (members l) →
    Paginates guildID guild l [] l
| Paginates_none_left l :
    membersLeft l <= 0 →
    Paginates guildID guild l [] l
| Paginates_empty_page l it :
    Collection.size (members l) < target guild l →
    0 < membersLeft l →
    it_log it = page_log l →
    it_request it = page_request guildID l →
    it_page it = [] →
    Paginates guildID guild l [it] l
| Paginates_next l it its l' :
    Collection.size (members l) < target guild l →
    0 < membersLeft l →
    it_log it = page_log l →
    it_request it = page_request guildID l →
    it_page it ≠ [] →
    Paginates guildID guild (next_locals l (it_page it)) its l' →
    Paginates guildID guild l (it :: its) l'.

(** The variables with which [getMembers] enters its loop. *)
Definition initial_locals (guild : Guild.t) (options : option GetMemberOptions.t)
  : Locals Member :=
  {| options := options; members := Collection.empty;
     membersLeft :=
       JS.nullish (options ≫= GetMemberOptions.limit) (Guild.memberCount guild);
     loops := 1 |}.

End Pagination.

Arguments Iteration Member : clear implicits.

(** The queries in a trace, in the order they were sent. *)
Definition sent_requests {Member : Type} (t : list (Event Member))
  : list MembersRequest :=
  omap (λ e, match e with RestGet request => Some request | _ => None end) t.

(** The members put in the collection according to a trace, in order. *)
Definition merged_members {Member : Type} (t : list (Event Member))
  : list Member :=
  omap (λ e, match e with MembersSet _ m => Some m | _ => None end) t.
Arguments initial_locals Member guild options : clear implicits.

(** ** Vocabulary for further properties *)

(** The members that a list of round trips asked for, all queries together. *)
Definition asked {Member : Type} (its : list (Iteration Member)) : Z :=
  foldr (λ it total, query_limit (it_request it) + total) 0 its.

(** The members that a list of round trips brought, all pages together. *)
Definition brought {Member : Type} (its : list (Iteration Member)) : Z :=
  Z.of_nat (length (flat_map it_page its)).

(** The keys of a list in the order in which each one shows up first. *)
Fixpoint first_seen (ks : list string) : list string :=
  match ks with
  | [] => []
  | k :: ks => k :: filter (λ x, x ≠ k) (first_seen ks)
  end.

(** The options of the first revision, read as options of the later one:
    [userIDs] is called [userIds] there. *)
Definition to_revision (o : FetchMembersOptions.t) : Revision.RequestGuildMembers.t :=
  {| Revision.RequestGuildMembers.limit := FetchMembersOptions.limit o;
     Revision.RequestGuildMembers.userIds := FetchMembersOptions.userIDs o;
     Revision.RequestGuildMembers.query := FetchMembersOptions.query o |}.

(** ** The other helpers of [helpers/guild.ts]

    Each of them sends at most one REST request.  The request is recorded as
    a value: the method, the route -- an endpoint of [util/constants.ts],
    kept symbolic, with what the helper appends to it -- and the payload the
    helper builds.  The dispatcher's answer is a parameter; the casts of the
    source ([as BannedUser[]], [as Emoji[]], ...) are views of the answer.
    [requireBotGuildPermissions] of [util/permissions.ts] is a parameter
    too: it either lets the helper go on or throws. *)

(** [Errors], the further members these helpers throw. *)
Inductive MoreErrors : Set :=
| RULES_CHANNEL_CANNOT_BE_DELETED
| UPDATES_CHANNEL_CANNOT_BE_DELETED
| PRUNE_MIN_DAYS
| PRUNE_MAX_DAYS
| GUILD_WIDGET_NOT_ENABLED.

(** What a helper throws: [new Error(Errors.X)], [new Error("text")], a bare
    string, or whatever [requireBotGuildPermissions] throws. *)
Inductive Exception (PermissionError : Type) : Type :=
| Error (e : Errors)
| ErrorMore (e : MoreErrors)
| ErrorText (message : string)
| ThrownString (message : string)
| Denied (e : PermissionError).

Arguments Error {PermissionError} e.
Arguments ErrorMore {PermissionError} e.
Arguments ErrorText {PermissionError} message.
Arguments ThrownString {PermissionError} message.
Arguments Denied {PermissionError} e.

(** The outcome of a helper: the value it resolves to, or what it throws. *)
Inductive Outcome (E A : Type) : Type :=
| Resolves (a : A)
| Throws (e : E).

Arguments Resolves {E A} a.
Arguments Throws {E A} e.

Inductive Method : Set := GET | POST | PATCH | PUT | DELETE.

(** The endpoints these helpers use. *)
Inductive Endpoint : Set :=
| GUILD_MEMBER (guildID id : string)
| CHANNEL_BASE (channelID : string)
| GUILD_CHANNELS (guildID : string)
| GUILD_PRUNE (guildID : string)
| GUILD_AUDIT_LOGS (guildID : string)
| GUILD_WIDGET (guildID : string)
| GUILD_TEMPLATES (guildID : string)
| GUILD_BANS (guildID : string)
| GUILD_EMOJIS (guildID : string)
| GUILD_EMOJI (guildID emojiID : string).

(** A route: an endpoint, and the text appended to it (empty for none). *)
Record Route := { endpoint : Endpoint; suffix : string }.

(** [PruneOptions]. *)
Module PruneOptions.
Record t := {
  days : option Z;
  computePruneCount : option bool;
  roles : option (list string)
}.

(** The object [{}]. *)
Definition empty : t := {| days := None; computePruneCount := None; roles := None |}.
End PruneOptions.

(** [GetAuditLogsOptions]: the two properties [getAuditLogs] reads, and the
    others, which it passes on as they are. *)
Module GetAuditLogsOptions.
Record t := {
  action_type : option string;
  limit : option Z;
  user_id : option string;
  before : option string
}.
End GetAuditLogsOptions.

(** The query [getAuditLogs] builds: the caller's options spread, with
    [action_type] and [limit] replaced. *)
Record AuditLogsQuery := {
  spread : GetAuditLogsOptions.t;
  query_action_type : option Z;
  audit_limit : Z
}.

(** [CreateGuildTemplate] and [EditGuildTemplate]: a string is the sequence
    of its code units, so that [String.length] is its [length]. *)
Module CreateGuildTemplate.
Record t := { name : string; description : option string }.
End CreateGuildTemplate.

Module EditGuildTemplate.
Record t := { name : option string; description : option string }.
End EditGuildTemplate.

(** [Overwrite]: a permission is the string that names it. *)
Record Overwrite := {
  overwrite_id : string;
  overwrite_type : string;
  allow : list string;
  deny : list string
}.

(** An overwrite as it is sent, with [allow] and [deny] turned into bits by
    [calculateBits]. *)
Record OverwritePayload := {
  sent_overwrite : Overwrite;
  allow_bits : string;
  deny_bits : string
}.

(** [ChannelCreateOptions]: the two properties [createGuildChannel] reads;
    the object goes into the payload as a whole, too. *)
Module ChannelCreateOptions.
Record t := {
  permissionOverwrites : option (list Overwrite);
  type : option Z
}.
End ChannelCreateOptions.

(** The payload of [createGuildChannel]: the options spread, then [name],
    [permission_overwrites] and [type]. *)
Record ChannelPayload := {
  channel_options : option ChannelCreateOptions.t;
  channel_name : string;
  permission_overwrites : option (list OverwritePayload);
  channel_type : Z
}.

(** The payloads of the requests. *)
Inductive Payload : Type :=
| NoPayload
| NewChannel (channel : ChannelPayload)
| WithReason (reason : option string)
| SnakeCase (options : PruneOptions.t)
| Query (query : AuditLogsQuery)
| NewTemplate (data : CreateGuildTemplate.t)
| TemplateEdit (data : EditGuildTemplate.t).

Record Request := { method : Method; route : Route; payload : Payload }.

Definition at_endpoint (e : Endpoint) : Route :=
  {| endpoint := e; suffix := EmptyString |}.

(** An [Emoji]: its id may be missing, its name is there. *)
Record Emoji := { emoji_id : option string; emoji_name : string }.

(** The [Guild] structure as the channel, widget and emoji helpers read it. *)
Module GuildStruct.
Record t := {
  rulesChannelID : option string;
  publicUpdatesChannelID : option string;
  widgetEnabled : option bool;
  emojis : Collection.t Emoji
}.

Definition set_emojis (e : Collection.t Emoji) (g : t) : t :=
  {| rulesChannelID := rulesChannelID g;
     publicUpdatesChannelID := publicUpdatesChannelID g;
     widgetEnabled := widgetEnabled g;
     emojis := e |}.
End GuildStruct.

(** [o < n] where [o] may be [undefined]: [undefined < n] is [false]. *)
Definition opt_lt (o : option Z) (n : Z) : bool :=
  match o with
  | Some m => m <? n
  | None => false
  end.

(** [set.add(x)] on a [Set], kept in insertion order: a value that is there
    already changes nothing. *)
Definition Set_add (s : list string) (x : string) : list string :=
  if decide (x ∈ s) then s else s ++ [x].

(** [!!b] for an optional boolean. *)
Definition truthy_opt_bool (b : option bool) : bool :=
  match b with
  | Some true => true
  | _ => false
  end.

(** [new Collection(entries)]: the [Map] constructor sets the entries one
    after the other. *)
Definition Collection_of_entries {V : Type} (entries : list (string * V))
  : Collection.t V :=
  foldl (λ c entry, Collection.set entry.1 entry.2 c) Collection.empty entries.

Section Helpers.

(** What [requireBotGuildPermissions(guildID, permissions)] throws, if it
    does; a permission is the string that names it. *)
Context {PermissionError : Type}.
Variable requireBotGuildPermissions : string → list string → option PermissionError.

(** The dispatcher's answer to a request, and the views the helpers take of
    it. *)
Context {Response : Type}.
Variable RequestManager : Request → Response.

Context {MemberCreatePayload Member BannedUser Template : Type}.
Variable as_MemberCreatePayload : Response → MemberCreatePayload.
Variable createMemberStruct : MemberCreatePayload → string → Member.
Variable member_id : Member → string.
Variable pruned : Response → option Z.
Variable as_BannedUsers : Response → list BannedUser.
Variable ban_user_id : BannedUser → string.
Variable as_Emojis : Response → list Emoji.
Variable as_Emoji : Response → Emoji.
Variable createTemplateStruct : Response → Template.

(** The [AuditLogs] enumeration: [AuditLogs[key]], [undefined] for a key it
    does not have. *)
Variable AuditLogs_value : string → option Z.

(** [calculateBits], [ChannelTypes.GUILD_TEXT], the channel payload that an
    answer is cast to, and the channel structure with its [id] and its
    factory [structures.createChannelStruct(payload, guildID?)]. *)
Context {ChannelCreatePayload Channel : Type}.
Variable calculateBits : list string → string.
Variable GUILD_TEXT : Z.
Variable as_ChannelCreatePayload : Response → ChannelCreatePayload.
Variable as_ChannelCreatePayloads : Response → list ChannelCreatePayload.
Variable createChannelStruct : ChannelCreatePayload → option string → Channel.
Variable channel_id : Channel → string.

Local Abbreviation Exn := (Exception PermissionError).

(** [getMember(guildID, id, options?: { force?: boolean })], lines 280-296.
    [force] is [options?.force]. *)
Definition getMember (c : Cache Member) (guildID id : string) (force : option bool)
  : Outcome Exn (option Member) * Cache Member * list Request :=
  match cached_guilds c !! guildID, truthy_opt_bool force with
  | None, false => (Resolves None, c, [])
  | _, _ =>
      let request := {| method := GET; route := at_endpoint (GUILD_MEMBER guildID id);
                        payload := NoPayload |} in
      let data := as_MemberCreatePayload (RequestManager request) in
      let memberStruct := createMemberStruct data guildID in
      (Resolves (Some memberStruct), cache_set_member member_id c memberStruct,
       [request])
  end.

(** The permissions [createGuildChannel] asks for: [MANAGE_CHANNELS], then
    what every overwrite allows and denies, in that order. *)
Definition requiredPerms (options : option ChannelCreateOptions.t) : list string :=
  foldl (λ perms overwrite,
           foldl Set_add (foldl Set_add perms (allow overwrite)) (deny overwrite))
        ["MANAGE_CHANNELS"]
        (JS.nullish (options ≫= ChannelCreateOptions.permissionOverwrites) []).

(** [createGuildChannel(guildID, name, options?)], lines 122-155; [channels]
    is the channels table of the cache. *)
Definition createGuildChannel (channels : gmap string Channel)
    (guildID name : string) (options : option ChannelCreateOptions.t)
  : Outcome Exn Channel * gmap string Channel * list Request :=
  match requireBotGuildPermissions guildID (requiredPerms options) with
  | Some e => (Throws (Denied e), channels, [])
  | None =>
      let request :=
        {| method := POST; route := at_endpoint (GUILD_CHANNELS guildID);
           payload :=
             NewChannel
               {| channel_options := options;
                  channel_name := name;
                  permission_overwrites :=
                    map (λ perm, {| sent_overwrite := perm;
                                    allow_bits := calculateBits (allow perm);
                                    deny_bits := calculateBits (deny perm) |})
                      <$> (options ≫= ChannelCreateOptions.permissionOverwrites);
                  channel_type :=
                    if JS.truthy_opt_number (options ≫= ChannelCreateOptions.type)
                    then JS.nullish (options ≫= ChannelCreateOptions.type) GUILD_TEXT
                    else GUILD_TEXT |} |} in
      let result := as_ChannelCreatePayload (RequestManager request) in
      let channelStruct := createChannelStruct result None in
      (Resolves channelStruct, <[channel_id channelStruct := channelStruct]> channels,
       [request])
  end.

(** [getChannels(guildID, addToCache = true)], lines 188-201. *)
Definition getChannels (channels : gmap string Channel) (guildID : string)
    (addToCache : option bool)
  : Outcome Exn (list Channel) * gmap string Channel * list Request :=
  let request := {| method := GET; route := at_endpoint (GUILD_CHANNELS guildID);
                    payload := NoPayload |} in
  let result := as_ChannelCreatePayloads (RequestManager request) in
  let channelStructs := map (λ res, createChannelStruct res (Some guildID)) result in
  (Resolves channelStructs,
   if JS.nullish addToCache true
   then foldl (λ c channelStruct, <[channel_id channelStruct := channelStruct]> c)
          channels channelStructs
   else channels,
   [request]).

(** [deleteChannel(guildID, channelID, reason?)], lines 158-182. *)
Definition deleteChannel (guilds : gmap string GuildStruct.t)
    (guildID channelID : string) (reason : option string)
  : Outcome Exn Response * list Request :=
  match requireBotGuildPermissions guildID ["MANAGE_CHANNELS"] with
  | Some e => (Throws (Denied e), [])
  | None =>
      match guilds !! guildID with
      | None => (Throws (Error GUILD_NOT_FOUND), [])
      | Some guild =>
          if decide (GuildStruct.rulesChannelID guild = Some channelID) then
            (Throws (ErrorMore RULES_CHANNEL_CANNOT_BE_DELETED), [])
          else if decide (GuildStruct.publicUpdatesChannelID guild = Some channelID) then
            (Throws (ErrorMore UPDATES_CHANNEL_CANNOT_BE_DELETED), [])
          else
            let request := {| method := DELETE; route := at_endpoint (CHANNEL_BASE channelID);
                              payload := WithReason reason |} in
            (Resolves (RequestManager request), [request])
      end
  end.

(** The two checks of [days] that [getPruneCount] and [pruneMembers] start
    with; [days] is [options?.days]. *)
Definition check_days (days : option Z) : option MoreErrors :=
  if JS.truthy_opt_number days && opt_lt days 1 then
    Some PRUNE_MIN_DAYS
  else if JS.truthy_opt_number days && JS.opt_gt days 30 then
    Some PRUNE_MAX_DAYS
  else None.

(** [getPruneCount(guildID, options?)], lines 501-515. *)
Definition getPruneCount (guildID : string) (options : option PruneOptions.t)
  : Outcome Exn (option Z) * list Request :=
  match check_days (options ≫= PruneOptions.days) with
  | Some e => (Throws (ErrorMore e), [])
  | None =>
      match requireBotGuildPermissions guildID ["KICK_MEMBERS"] with
      | Some e => (Throws (Denied e), [])
      | None =>
          let request :=
            {| method := GET; route := at_endpoint (GUILD_PRUNE guildID);
               payload := SnakeCase (JS.nullish options PruneOptions.empty) |} in
          (Resolves (pruned (RequestManager request)), [request])
      end
  end.

(** [pruneMembers(guildID, options)], lines 522-537. *)
Definition pruneMembers (guildID : string) (options : PruneOptions.t)
  : Outcome Exn Response * list Request :=
  match check_days (PruneOptions.days options) with
  | Some e => (Throws (ErrorMore e), [])
  | None =>
      match requireBotGuildPermissions guildID ["KICK_MEMBERS"] with
      | Some e => (Throws (Denied e), [])
      | None =>
          let request :=
            {| method := POST; route := at_endpoint (GUILD_PRUNE guildID);
               payload := SnakeCase options |} in
          (Resolves (RequestManager request), [request])
      end
  end.

(** The [limit] that [getAuditLogs] sends:
    [limit && limit >= 1 && limit <= 100 ? limit : 50]. *)
Definition audit_logs_limit (limit : option Z) : Z :=
  match limit with
  | Some n => if JS.truthy_number n && (1 <=? n) && (n <=? 100) then n else 50
  | None => 50
  end.

(** [getAuditLogs(guildID, options)], lines 636-653. *)
Definition getAuditLogs (guildID : string) (options : GetAuditLogsOptions.t)
  : Outcome Exn Response * list Request :=
  match requireBotGuildPermissions guildID ["VIEW_AUDIT_LOG"] with
  | Some e => (Throws (Denied e), [])
  | None =>
      let request :=
        {| method := GET; route := at_endpoint (GUILD_AUDIT_LOGS guildID);
           payload :=
             Query
               {| spread := options;
                  query_action_type :=
                    if JS.truthy_opt_string (GetAuditLogsOptions.action_type options)
                    then GetAuditLogsOptions.action_type options ≫= AuditLogs_value
                    else None;
                  audit_limit := audit_logs_limit (GetAuditLogsOptions.limit options) |} |} in
      (Resolves (RequestManager request), [request])
  end.

(** The check that [getWidget] and [getWidgetImageUrl] make unless [force]
    is set. *)
Definition check_widget (guilds : gmap string GuildStruct.t) (guildID : string)
  : option Exn :=
  match guilds !! guildID with
  | None => Some (Error GUILD_NOT_FOUND)
  | Some guild =>
      if truthy_opt_bool (GuildStruct.widgetEnabled guild) then None
      else Some (ErrorMore GUILD_WIDGET_NOT_ENABLED)
  end.

(** [getWidget(guildID, options?: { force: boolean })], lines 681-689. *)
Definition getWidget (guilds : gmap string GuildStruct.t) (guildID : string)
    (force : option bool)
  : Outcome Exn Response * list Request :=
  let request := {| method := GET;
                    route := {| endpoint := GUILD_WIDGET guildID; suffix := ".json" |};
                    payload := NoPayload |} in
  if truthy_opt_bool force then (Resolves (RequestManager request), [request])
  else
    match check_widget guilds guildID with
    | Some e => (Throws e, [])
    | None => (Resolves (RequestManager request), [request])
    end.

(** [getWidgetImageUrl(guildID, options?: { style?, force? })], lines
    692-707: the result is the URL, no request is sent. *)
Definition getWidgetImageUrl (guilds : gmap string GuildStruct.t) (guildID : string)
    (style : option string) (force : option bool)
  : Outcome Exn Route :=
  let url := {| endpoint := GUILD_WIDGET guildID;
                suffix := ".png?style=" +:+ JS.nullish style "shield" |} in
  if truthy_opt_bool force then Resolves url
  else
    match check_widget guilds guildID with
    | Some e => Throws e
    | None => Resolves url
    end.

(** [data.description?.length && data.description.length > 120]. *)
Definition description_too_long (description : option string) : bool :=
  match description with
  | Some d =>
      JS.truthy_number (Z.of_nat (String.length d)) && (120 <? Z.of_nat (String.length d))
  | None => false
  end.

(** [createGuildTemplate(guildID, data)], lines 983-1003. *)
Definition createGuildTemplate (guildID : string) (data : CreateGuildTemplate.t)
  : Outcome Exn Template * list Request :=
  match requireBotGuildPermissions guildID ["MANAGE_GUILD"] with
  | Some e => (Throws (Denied e), [])
  | None =>
      let n := Z.of_nat (String.length (CreateGuildTemplate.name data)) in
      if (n <? 1) || (100 <? n) then
        (Throws (ErrorText "The name can only be in between 1-100 characters."), [])
      else if description_too_long (CreateGuildTemplate.description data) then
        (Throws (ErrorText "The description can only be in between 0-120 characters."), [])
      else
        let request := {| method := POST; route := at_endpoint (GUILD_TEMPLATES guildID);
                          payload := NewTemplate data |} in
        (Resolves (createTemplateStruct (RequestManager request)), [request])
  end.

(** [data.name?.length && (data.name.length < 1 || data.name.length > 100)]. *)
Definition edited_name_rejected (name : option string) : bool :=
  match name with
  | Some s =>
      let n := Z.of_nat (String.length s) in
      JS.truthy_number n && ((n <? 1) || (100 <? n))
  | None => false
  end.

(** [editGuildTemplate(guildID, templateCode, data)], lines 1023-1044. *)
Definition editGuildTemplate (guildID templateCode : string) (data : EditGuildTemplate.t)
  : Outcome Exn Template * list Request :=
  match requireBotGuildPermissions guildID ["MANAGE_GUILD"] with
  | Some e => (Throws (Denied e), [])
  | None =>
      if edited_name_rejected (EditGuildTemplate.name data) then
        (Throws (ErrorText "The name can only be in between 1-100 characters."), [])
      else if description_too_long (EditGuildTemplate.description data) then
        (Throws (ErrorText "The description can only be in between 0-120 characters."), [])
      else
        let request :=
          {| method := PATCH;
             route := {| endpoint := GUILD_TEMPLATES guildID;
                         suffix := "/" +:+ templateCode |};
             payload := TemplateEdit data |} in
        (Resolves (createTemplateStruct (RequestManager request)), [request])
  end.

(** [getBans(guildID)], lines 766-776. *)
Definition getBans (guildID : string)
  : Outcome Exn (Collection.t BannedUser) * list Request :=
  match requireBotGuildPermissions guildID ["BAN_MEMBERS"] with
  | Some e => (Throws (Denied e), [])
  | None =>
      let request := {| method := GET; route := at_endpoint (GUILD_BANS guildID);
                        payload := NoPayload |} in
      let results := as_BannedUsers (RequestManager request) in
      (Resolves (Collection_of_entries (map (λ res, (ban_user_id res, res)) results)),
       [request])
  end.

(** The key of an emoji in [guild.emojis]: [emoji.id ?? emoji.name]. *)
Definition emoji_key (emoji : Emoji) : string :=
  JS.nullish (emoji_id emoji) (emoji_name emoji).

(** [getEmojis(guildID, addToCache = true)], lines 382-397.  The guild that
    comes from the cache gets the emojis set one by one and is stored
    back. *)
Definition getEmojis (guilds : gmap string GuildStruct.t) (guildID : string)
    (addToCache : option bool)
  : Outcome Exn (list Emoji) * gmap string GuildStruct.t * list Request :=
  let request := {| method := GET; route := at_endpoint (GUILD_EMOJIS guildID);
                    payload := NoPayload |} in
  let result := as_Emojis (RequestManager request) in
  if JS.nullish addToCache true then
    match guilds !! guildID with
    | None => (Throws (Error GUILD_NOT_FOUND), guilds, [request])
    | Some guild =>
        let emojis :=
          foldl (λ c emoji, Collection.set (emoji_key emoji) emoji c)
                (GuildStruct.emojis guild) result in
        (Resolves result, <[guildID := GuildStruct.set_emojis emojis guild]> guilds,
         [request])
    end
  else (Resolves result, guilds, [request]).

(** [getEmoji(guildID, emojiID, addToCache = true)], lines 404-425. *)
Definition getEmoji (guilds : gmap string GuildStruct.t) (guildID emojiID : string)
    (addToCache : option bool)
  : Outcome Exn Emoji * gmap string GuildStruct.t * list Request :=
  let request := {| method := GET; route := at_endpoint (GUILD_EMOJI guildID emojiID);
                    payload := NoPayload |} in
  let result := as_Emoji (RequestManager request) in
  if JS.nullish addToCache true then
    match guilds !! guildID with
    | None => (Throws (Error GUILD_NOT_FOUND), guilds, [request])
    | Some guild =>
        let emojis := Collection.set (emoji_key result) result (GuildStruct.emojis guild) in
        (Resolves result, <[guildID := GuildStruct.set_emojis emojis guild]> guilds,
         [request])
    end
  else (Resolves result, guilds, [request]).

End Helpers.

(** ** Concrete collaborators for the other helpers *)

Module Demo.

(** The bot holds every permission but [BAN_MEMBERS]. *)
Definition permissions (guildID : string) (required : list string) : option string :=
  if decide ("BAN_MEMBERS" ∈ required) then Some "BAN_MEMBERS" else None.

(** The bot holds every permission. *)
Definition all_permissions (guildID : string) (required : list string)
  : option string := None.

(** A dispatcher that answers every request with the same three names. *)
Definition RequestManager (request : Request) : list string := ["7"; "8"; "7"].

Definition as_MemberCreatePayload (response : list string) : Sample.Payload :=
  {| Sample.user_id := default "0" (head response); Sample.nick := "n" |}.

Definition pruned (response : list string) : option Z :=
  Some (Z.of_nat (length response)).

Definition as_Emojis (response : list string) : list Emoji :=
  map (λ s, {| emoji_id := Some s; emoji_name := "e" |}) response.

Definition as_Emoji (response : list string) : Emoji :=
  {| emoji_id := None; emoji_name := default "e" (head response) |}.

Definition AuditLogs_value (key : string) : option Z :=
  if decide (key = "GUILD_UPDATE") then Some 1 else None.

Definition guild : GuildStruct.t :=
  {| GuildStruct.rulesChannelID := Some "rules";
     GuildStruct.publicUpdatesChannelID := Some "updates";
     GuildStruct.widgetEnabled := Some true;
     GuildStruct.emojis := Collection.empty |}.

Definition guilds : gmap string GuildStruct.t := {[ "g" := guild ]}.

End Demo.

(** The [days] that the prune helpers let through: none given, 0, or
    between 1 and 30. *)
Definition days_accepted (days : option Z) : Prop :=
  match days with
  | Some d => d = 0 ∨ 1 <= d <= 30
  | None => True
  end.

(** * Properties *)

(** ** The intent guard *)

Lemma truthy_number_false n : JS.truthy_number n = false ↔ n = 0.
Proof.
  unfold JS.truthy_number. destruct (Z.eqb_spec n 0); simpl; split; congruence.
Qed.

(** The logical conjunction of the guard only asks whether both numbers are
    non-zero. *)
Lemma intent_missing_true GM identifyPayload :
  intent_missing GM identifyPayload = true ↔ intents identifyPayload = 0 ∨ GM = 0.
Proof.
  unfold intent_missing, JS.and_number.
  rewrite negb_true_iff.
  destruct (JS.truthy_number (intents identifyPayload)) eqn:Hi.
  - rewrite truthy_number_false. split; [auto | intros [H | H]; [| done]].
    apply truthy_number_false in H. congruence.
  - rewrite Hi. apply truthy_number_false in Hi. tauto.
Qed.

Lemma intent_missing_false GM identifyPayload :
  intent_missing GM identifyPayload = false ↔ intents identifyPayload ≠ 0 ∧ GM ≠ 0.
Proof.
  destruct (intent_missing GM identifyPayload) eqn:H.
  - apply intent_missing_true in H. split; [done | tauto].
  - split; [intros _ | done].
    split; intros H0; assert (intent_missing GM identifyPayload = true) as H1
      by (apply intent_missing_true; auto); congruence.
Qed.

(** Both revisions of [fetchMembers] run the same guard. *)
Lemma Revision_intent_missing GM identifyPayload :
  Revision.intent_missing GM identifyPayload = intent_missing GM identifyPayload.
Proof. reflexivity. Qed.

(** When [fetchMembers] throws: the caller's limit is missing, [0] or above
    [1], and the intents are [0] (or the bit constant is). *)
Lemma fetchMembers_throws GM identifyPayload calls guild options :
  (fetchMembers GM identifyPayload calls guild options).1
    = Throw MISSING_INTENT_GUILD_MEMBERS
  ↔ limit_needs_intent options = true
    ∧ (intents identifyPayload = 0 ∨ GM = 0).
Proof.
  unfold fetchMembers. rewrite <- intent_missing_true.
  destruct (limit_needs_intent options), (intent_missing GM identifyPayload);
    simpl; split; try done; intros [? ?]; done.
Qed.

(** A throw leaves the caller's object and the gateway as they were. *)
Lemma fetchMembers_throw_pure GM identifyPayload calls guild options e :
  (fetchMembers GM identifyPayload calls guild options).1 = Throw e →
  (fetchMembers GM identifyPayload calls guild options).2
    = {| caller_options := options; gateway_calls := calls |}.
Proof.
  unfold fetchMembers.
  destruct (limit_needs_intent options && intent_missing GM identifyPayload);
    simpl; [done | discriminate].
Qed.

(** With non-zero intents the guard never fires, whichever bits they hold. *)
Lemma fetchMembers_nonzero_intents GM identifyPayload calls guild options :
  intents identifyPayload ≠ 0 → GM ≠ 0 →
  (fetchMembers GM identifyPayload calls guild options).1 = Return PendingMembers.
Proof.
  intros Hi Hg. unfold fetchMembers.
  assert (intent_missing GM identifyPayload = false) as ->
    by (apply intent_missing_false; done).
  rewrite andb_false_r. reflexivity.
Qed.

(** A caller's limit of exactly [1] passes the guard with any intents. *)
Lemma fetchMembers_limit_one GM identifyPayload calls guild o :
  FetchMembersOptions.limit o = Some 1 →
  (fetchMembers GM identifyPayload calls guild (Some o)).1 = Return PendingMembers.
Proof.
  intros H. unfold fetchMembers, limit_needs_intent. simpl. rewrite H. reflexivity.
Qed.

(** C1, evaluated where the code departs from it.  The claim: a call whose
    effective limit is 0 or above 1 throws MISSING_INTENT_GUILD_MEMBERS when
    the granted intents lack the GUILD_MEMBERS bit, before
    [requestAllMembers] runs.  The guard combines the intents and the bit
    with the logical [&&]: with the intents [GUILDS] alone, which lack the
    bit, and a limit of 0, nothing is thrown and [requestAllMembers] is
    called. *)
Theorem fetchMembers_missing_bit_not_rejected :
  let identifyPayload := {| intents := Sample.GUILDS |} in
  let options :=
    Some {| FetchMembersOptions.limit := Some 0;
            FetchMembersOptions.userIDs := None;
            FetchMembersOptions.query := None |} in
  intent_granted Sample.GUILD_MEMBERS identifyPayload = false
  ∧ effective_limit options = Some 0
  ∧ fetchMembers Sample.GUILD_MEMBERS identifyPayload [] (Sample.guild 5) options
    = (Return PendingMembers,
       {| caller_options := options;
          gateway_calls :=
            [ {| call_guild := Sample.guild 5; call_options := options |} ] |}).
Proof. repeat split. Qed.

(** The same input through the later revision. *)
Lemma Revision_missing_bit_passes :
  let options :=
    Some {| Revision.RequestGuildMembers.limit := Some 0;
            Revision.RequestGuildMembers.userIds := None;
            Revision.RequestGuildMembers.query := None |} in
  (Revision.fetchMembers Sample.GUILD_MEMBERS {| intents := Sample.GUILDS |}
     [] "g" 0 options).1
  = Return Revision.RejectedNotImplemented.
Proof. reflexivity. Qed.

(** The guard reads the caller's limit before a list of user ids overrides
    it: two ids with a caller's limit of 1 and no intents at all go
    through, with an effective limit of 2. *)
Lemma fetchMembers_guard_reads_caller_limit :
  let options :=
    Some {| FetchMembersOptions.limit := Some 1;
            FetchMembersOptions.userIDs := Some ["1"; "2"];
            FetchMembersOptions.query := None |} in
  effective_limit options = Some 2
  ∧ (fetchMembers Sample.GUILD_MEMBERS {| intents := 0 |} [] (Sample.guild 5) options).1
    = Return PendingMembers.
Proof. split; reflexivity. Qed.

(** C2: for a call with a non-empty list of [k] user ids, the limit that the
    request carries (and that the caller's object holds afterwards) is [k],
    whatever limit the caller supplied: every call of [requestAllMembers]
    that this [fetchMembers] makes has options with limit [k], and it makes
    that call whenever the guard lets it through. *)
Theorem fetchMembers_userIDs_limit GM identifyPayload calls guild o ids :
  FetchMembersOptions.userIDs o = Some ids →
  ids ≠ [] →
  let k := Z.of_nat (length ids) in
  let o' := {| FetchMembersOptions.limit := Some k;
               FetchMembersOptions.userIDs := Some ids;
               FetchMembersOptions.query := FetchMembersOptions.query o |} in
  let r := fetchMembers GM identifyPayload calls guild (Some o) in
  effective_limit (Some o) = Some k
  ∧ (∃ new, gateway_calls r.2 = calls ++ new
            ∧ ∀ call, call ∈ new →
                call_options call ≫= FetchMembersOptions.limit = Some k)
  ∧ (limit_needs_intent (Some o) && intent_missing GM identifyPayload = false →
     r = (Return PendingMembers,
          {| caller_options := Some o';
             gateway_calls :=
               calls ++ [ {| call_guild := guild; call_options := Some o' |} ] |})).
Proof.
  intros Hids Hne k o' r.
  assert (override_limit (Some o) = Some o') as Hov.
  { unfold override_limit. rewrite Hids.
    assert (JS.truthy_number (Z.of_nat (length ids)) = true) as ->.
    { destruct ids; [done |]. reflexivity. }
    unfold FetchMembersOptions.set_limit. rewrite Hids. reflexivity. }
  split; [| split].
  - unfold effective_limit. rewrite Hov. reflexivity.
  - subst r. unfold fetchMembers.
    destruct (limit_needs_intent (Some o) && intent_missing GM identifyPayload).
    + exists []. simpl. rewrite app_nil_r. split; [done |].
      intros call Hin. inversion Hin.
    + rewrite Hov. eexists. split; [reflexivity |].
      intros call Hin. apply list_elem_of_singleton in Hin. subst call. reflexivity.
  - intros Hguard. subst r. unfold fetchMembers. rewrite Hguard, Hov. reflexivity.
Qed.

Lemma fetchMembers_userIDs_limit_witness :
  let o := {| FetchMembersOptions.limit := Some 50;
              FetchMembersOptions.userIDs := Some ["1"; "2"; "3"];
              FetchMembersOptions.query := None |} in
  effective_limit (Some o) = Some 3
  ∧ (fetchMembers Sample.GUILD_MEMBERS {| intents := Sample.GUILD_MEMBERS |} []
       (Sample.guild 5) (Some o)).1 = Return PendingMembers.
Proof.
  intros o.
  destruct (fetchMembers_userIDs_limit Sample.GUILD_MEMBERS
              {| intents := Sample.GUILD_MEMBERS |} [] (Sample.guild 5) o
              ["1"; "2"; "3"] eq_refl ltac:(discriminate)) as (He & _ & Hr).
  split; [exact He |].
  rewrite (Hr eq_refl). reflexivity.
Defined.

(** The later revision does the same to [userIds]. *)
Lemma Revision_userIds_override GM identifyPayload calls guildId shardId o ids :
  Revision.RequestGuildMembers.userIds o = Some ids →
  ids ≠ [] →
  Revision.override_limit (Some o)
  = Some {| Revision.RequestGuildMembers.limit := Some (Z.of_nat (length ids));
            Revision.RequestGuildMembers.userIds := Some ids;
            Revision.RequestGuildMembers.query := Revision.RequestGuildMembers.query o |}
  ∧ ∀ call,
      call ∈ drop (length calls)
               (Revision.gateway_calls
                  (Revision.fetchMembers GM identifyPayload calls guildId shardId (Some o)).2) →
      Revision.call_options call = Revision.override_limit (Some o).
Proof.
  intros Hids Hne. split.
  - unfold Revision.override_limit. rewrite Hids.
    assert (JS.truthy_number (Z.of_nat (length ids)) = true) as ->.
    { destruct ids; [done |]. reflexivity. }
    unfold Revision.RequestGuildMembers.set_limit. rewrite Hids. reflexivity.
  - intros call. unfold Revision.fetchMembers.
    destruct (Revision.limit_needs_intent (Some o)
              && Revision.intent_missing GM identifyPayload); simpl.
    + rewrite drop_all. intros Hin. inversion Hin.
    + rewrite drop_app_length. intros Hin.
      apply list_elem_of_singleton in Hin. subst call. reflexivity.
Qed.

(** C3, evaluated where the code departs from it.  The claim: a call whose
    effective limit is 1, also when a single user id makes it so, is never
    refused for missing intents.  The guard runs before the override and
    reads the caller's own limit: one user id, no limit and no intents
    throws MISSING_INTENT_GUILD_MEMBERS, and [requestAllMembers] is not
    called. *)
Theorem fetchMembers_single_userID_rejected :
  let options :=
    Some {| FetchMembersOptions.limit := None;
            FetchMembersOptions.userIDs := Some ["1"];
            FetchMembersOptions.query := None |} in
  effective_limit options = Some 1
  ∧ fetchMembers Sample.GUILD_MEMBERS {| intents := 0 |} [] (Sample.guild 5) options
    = (Throw MISSING_INTENT_GUILD_MEMBERS,
       {| caller_options := options; gateway_calls := [] |}).
Proof. split; reflexivity. Qed.

(** ** [getMembersByQuery] *)

(** C10: for a guild id that the guilds cache does not hold,
    [getMembersByQuery] returns [undefined]: it does not throw and it does
    not call [requestAllMembers]. *)
Theorem getMembersByQuery_unknown_guild {Member : Type}
    (c : Cache Member) calls guildID name limit :
  cached_guilds c !! guildID = None →
  getMembersByQuery c calls guildID name limit = (Return None, calls).
Proof. intros H. unfold getMembersByQuery. rewrite H. reflexivity. Qed.

Lemma getMembersByQuery_unknown_guild_witness :
  getMembersByQuery (Sample.cache_of 10) [] "h" "al" None = (Return None, []).
Proof.
  apply (getMembersByQuery_unknown_guild (Sample.cache_of 10) [] "h" "al" None).
  reflexivity.
Defined.

(** A cached guild gets its request, with the limit defaulting to 1. *)
Lemma getMembersByQuery_known_guild {Member : Type}
    (c : Cache Member) calls guildID name limit guild :
  cached_guilds c !! guildID = Some guild →
  getMembersByQuery c calls guildID name limit
  = (Return (Some PendingMembers),
     calls ++ [ {| call_guild := guild;
                   call_options :=
                     Some {| FetchMembersOptions.limit := Some (JS.nullish limit 1);
                             FetchMembersOptions.userIDs := None;
                             FetchMembersOptions.query := Some name |} |} ]).
Proof. intros H. unfold getMembersByQuery. rewrite H. reflexivity. Qed.

(** ** The collection *)

Section CollectionFacts.

Context {V : Type}.
Implicit Types (c : Collection.t V) (k : string) (v : V).

Lemma Collection_get_set k k' v c :
  Collection.get k (Collection.set k' v c)
  = if decide (k = k') then Some v else Collection.get k c.
Proof.
  induction c as [| [k0 v0] c IH]; simpl.
  - reflexivity.
  - destruct (decide (k' = k0)) as [-> | Hne]; simpl.
    + destruct (decide (k = k0)); reflexivity.
    + destruct (decide (k = k0)) as [-> | Hne'].
      * destruct (decide (k0 = k')); [congruence | reflexivity].
      * exact IH.
Qed.

Lemma Collection_size_set k v c :
  Collection.size c <= Collection.size (Collection.set k v c) <= Collection.size c + 1.
Proof.
  unfold Collection.size.
  induction c as [| [k0 v0] c IH]; simpl.
  - lia.
  - destruct (decide (k = k0)); simpl length; lia.
Qed.

Lemma Collection_size_nonneg c : 0 <= Collection.size c.
Proof. unfold Collection.size. lia. Qed.

End CollectionFacts.

(** ** The pagination loop *)

Section PaginationFacts.

Variable GUILD_MEMBERS : Z.
Context {MemberCreatePayload Member : Type}.
Variable createMemberStruct : MemberCreatePayload → string → Member.
Variable member_id : Member → string.
Context {RestState : Type}.
Variable RequestManager_get :
  RestState → MembersRequest → list MemberCreatePayload * RestState.

Local Abbreviation loop_body := (loop_body createMemberStruct member_id RequestManager_get).
Local Abbreviation while_loop := (while_loop createMemberStruct member_id RequestManager_get).
Local Abbreviation getMembers :=
  (getMembers GUILD_MEMBERS createMemberStruct member_id RequestManager_get).
Local Abbreviation served := (served createMemberStruct RequestManager_get).
Local Abbreviation Paginates := (Paginates member_id).
Local Abbreviation iteration_events := (iteration_events member_id).
Local Abbreviation merge_page := (merge_page member_id).
Local Abbreviation next_locals := (next_locals member_id).
Local Abbreviation cache_set_member := (cache_set_member member_id).
Local Abbreviation fetched_page := (fetched_page createMemberStruct RequestManager_get).
Local Abbreviation fetched_iteration :=
  (fetched_iteration createMemberStruct RequestManager_get).

Implicit Types (l : Locals Member) (w : World Member RestState)
  (it : Iteration Member) (its : list (Iteration Member)) (page : list Member).

(** The loop body, as a round trip. *)
Lemma loop_body_round_trip guildID l w :
  loop_body guildID l w
  = (match fetched_page guildID l w with
     | [] => None
     | _ :: _ => Some (next_locals l (fetched_page guildID l w))
     end,
     {| cache := foldl cache_set_member (cache w) (fetched_page guildID l w);
        rest := (RequestManager_get (rest w) (page_request guildID l)).2;
        trace := trace w ++ iteration_events (fetched_iteration guildID l w) |}).
Proof.
  unfold loop_body, fetched_iteration, iteration_events, fetched_page. simpl.
  destruct (RequestManager_get (rest w) (page_request guildID l)) as [result rest'].
  simpl.
  set (page := map (λ member, createMemberStruct member guildID) result).
  destruct (last page) as [m |] eqn:Hlast.
  - destruct page as [| m0 page'] eqn:Hpage; [discriminate |].
    unfold next_locals, store_page, emit. simpl. rewrite Hlast. simpl.
    f_equal. f_equal. rewrite <- !app_assoc. simpl. reflexivity.
  - apply last_None in Hlast. rewrite Hlast. simpl.
    unfold store_page. simpl. rewrite app_nil_r, <- app_assoc. reflexivity.
Qed.

Lemma loop_cond_true guild l :
  loop_cond guild l = true
  ↔ Collection.size (members l) < target guild l ∧ 0 < membersLeft l.
Proof.
  unfold loop_cond, target. rewrite andb_true_iff, !Z.ltb_lt. reflexivity.
Qed.

Lemma loop_cond_false guild l :
  loop_cond guild l = false
  ↔ target guild l <= Collection.size (members l) ∨ membersLeft l <= 0.
Proof.
  unfold loop_cond, target. rewrite andb_false_iff, !Z.ltb_ge. reflexivity.
Qed.

(** Every run of the loop that returns is a pagination in the sense of the
    specification, over the pages the dispatcher served; its trace and its
    cache are those of the round trips. *)
Lemma while_loop_run fuel guildID guild l w l' w' :
  while_loop fuel guildID guild l w = Some (l', w') →
  ∃ its,
    Paginates guildID guild l its l'
    ∧ served guildID (rest w) its
    ∧ trace w' = trace w ++ flat_map iteration_events its
    ∧ cache w' = foldl cache_set_member (cache w) (flat_map it_page its).
Proof.
  revert l w. induction fuel as [| fuel IH]; intros l w; simpl.
  - destruct (loop_cond guild l) eqn:Hc; [discriminate |].
    intros [= <- <-]. exists []. simpl. rewrite app_nil_r.
    apply loop_cond_false in Hc.
    split; [| done]. destruct Hc; [by apply Paginates_reached | by apply Paginates_none_left].
  - destruct (loop_cond guild l) eqn:Hc.
    + apply loop_cond_true in Hc. destruct Hc as [Hsize Hleft].
      rewrite loop_body_round_trip.
      destruct (fetched_page guildID l w) as [| m page] eqn:Hpage.
      * intros [= <- <-]. exists [fetched_iteration guildID l w]. simpl.
        rewrite Hpage, !app_nil_r. simpl.
        split; [by apply Paginates_empty_page |]. done.
      * intros Hrun. apply IH in Hrun. simpl in Hrun.
        destruct Hrun as (its & Hp & Hs & Ht & Hcache).
        exists (fetched_iteration guildID l w :: its). simpl.
        rewrite Hpage. split; [| split; [| split]].
        -- apply Paginates_next; simpl; try done; rewrite Hpage; done.
        -- split; [by rewrite <- Hpage | done].
        -- rewrite Ht, <- app_assoc. reflexivity.
        -- rewrite Hcache, foldl_app. reflexivity.
    + intros [= <- <-]. exists []. simpl. rewrite app_nil_r.
      apply loop_cond_false in Hc.
      split; [| done]. destruct Hc; [by apply Paginates_reached | by apply Paginates_none_left].
Qed.

(** The loop returns: [membersLeft] loses 1000 at every turn. *)
Lemma while_loop_terminates fuel guildID guild l w :
  (Z.to_nat (membersLeft l / 1000 + 1) <= fuel)%nat →
  is_Some (while_loop fuel guildID guild l w).
Proof.
  revert l w. induction fuel as [| fuel IH]; intros l w Hfuel; simpl.
  - destruct (loop_cond guild l) eqn:Hc; [| by eexists].
    apply loop_cond_true in Hc. destruct Hc as [_ Hleft].
    assert (0 <= membersLeft l / 1000) by (apply Z.div_pos; lia). lia.
  - destruct (loop_cond guild l) eqn:Hc; [| by eexists].
    apply loop_cond_true in Hc. destruct Hc as [_ Hleft].
    rewrite loop_body_round_trip.
    destruct (fetched_page guildID l w) as [| m page]; [by eexists |].
    apply IH. simpl.
    assert (0 <= membersLeft l / 1000) by (apply Z.div_pos; lia).
    replace (membersLeft l - 1000) with (membersLeft l + (-1) * 1000) by lia.
    rewrite Z.div_add by lia. lia.
Qed.

(** [getMembers] on a cached guild, with the guard passed: it returns the
    collection of a pagination that starts from the caller's options. *)
Lemma getMembers_run identifyPayload guildID options w guild :
  intent_missing GUILD_MEMBERS identifyPayload = false →
  cached_guilds (cache w) !! guildID = Some guild →
  ∃ its l' w',
    getMembers identifyPayload guildID options w = Some (Return (members l'), w')
    ∧ Paginates guildID guild (initial_locals Member guild options) its l'
    ∧ served guildID (rest w) its
    ∧ trace w' = trace w ++ flat_map iteration_events its
    ∧ cache w' = foldl cache_set_member (cache w) (flat_map it_page its).
Proof.
  intros Hintent Hguild.
  destruct (while_loop_terminates
              (loop_fuel (membersLeft (initial_locals Member guild options)))
              guildID guild (initial_locals Member guild options) w) as [[l' w'] Hrun].
  { unfold loop_fuel. lia. }
  destruct (while_loop_run _ _ _ _ _ _ _ Hrun) as (its & Hits).
  exists its, l', w'. split; [| exact Hits].
  unfold getMembers. rewrite Hintent, Hguild.
  unfold initial_locals in Hrun. simpl in Hrun. simpl. rewrite Hrun. reflexivity.
Qed.

(** [getMembers] always comes back, with a collection or with an error. *)
Lemma getMembers_total identifyPayload guildID options w :
  is_Some (getMembers identifyPayload guildID options w).
Proof.
  destruct (intent_missing GUILD_MEMBERS identifyPayload) eqn:Hi.
  - unfold getMembers. rewrite Hi. by eexists.
  - destruct (cached_guilds (cache w) !! guildID) as [guild |] eqn:Hg.
    + destruct (getMembers_run identifyPayload guildID options w guild Hi Hg)
        as (its & l' & w' & -> & _). by eexists.
    + unfold getMembers. rewrite Hi, Hg. by eexists.
Qed.

(** *** What a pagination is made of *)

Lemma page_request_limit guildID l :
  0 < membersLeft l → 1 <= query_limit (page_request guildID l) <= 1000.
Proof.
  intros H. unfold page_request. simpl.
  destruct (Z.ltb_spec 1000 (membersLeft l)); lia.
Qed.

Lemma Paginates_limits guildID guild l its l' :
  Paginates guildID guild l its l' →
  Forall (λ it, 1 <= query_limit (it_request it) <= 1000) its.
Proof.
  induction 1 as [| | l it _ Hleft _ Hreq _ | l it its l' _ Hleft _ Hreq _ _ IH].
  - constructor.
  - constructor.
  - constructor; [| constructor]. rewrite Hreq. by apply page_request_limit.
  - constructor; [| exact IH]. rewrite Hreq. by apply page_request_limit.
Qed.

(** Only the last round trip of a pagination can bring an empty page. *)
Lemma Paginates_pages guildID guild l its l' :
  Paginates guildID guild l its l' →
  ∀ (i : nat) it, its !! i = Some it → (S i < length its)%nat → it_page it ≠ [].
Proof.
  induction 1 as [| | l it | l it its l' _ _ _ _ Hpage _ IH]; intros i it0 Hi Hlt.
  - done.
  - done.
  - simpl in Hlt. lia.
  - destruct i as [| i]; simpl in Hi.
    + by injection Hi as <-.
    + apply (IH i); [done | simpl in Hlt; lia].
Qed.

(** Where a pagination ends, one of the three conditions holds. *)
Lemma Paginates_end guildID guild l its l' :
  Paginates guildID guild l its l' →
  (∃ it, last its = Some it ∧ it_page it = [])
  ∨ target guild l' <= Collection.size (members l')
  ∨ membersLeft l' <= 0.
Proof.
  induction 1 as [| | l it | l it its l' _ _ _ _ _ Hrest IH].
  - auto.
  - auto.
  - left. by exists it.
  - destruct IH as [(it' & Hlast & Hempty) | IH]; [| auto].
    left. exists it'. split; [| done].
    rewrite last_cons, Hlast. reflexivity.
Qed.

Lemma Paginates_collected guildID guild l its l' :
  Paginates guildID guild l its l' →
  members l' = merge_page (flat_map it_page its) (members l).
Proof.
  induction 1 as [| | l it _ _ _ _ Hpage | l it its l' _ _ _ _ _ _ IH].
  - reflexivity.
  - reflexivity.
  - simpl. rewrite Hpage. reflexivity.
  - simpl. rewrite IH. unfold merge_page at 2. rewrite foldl_app. reflexivity.
Qed.

(** The cursors of a pagination: the first query carries the cursor of the
    variables it starts from, every later one the id of the member that
    closes the page before it. *)
Lemma Paginates_cursors guildID guild l its l' :
  Paginates guildID guild l its l' →
  (∀ it, head its = Some it →
     query_after (it_request it) = sent_after (options l ≫= GetMemberOptions.after))
  ∧ (∀ (i : nat) it it', its !! i = Some it → its !! S i = Some it' →
       ∃ m, last (it_page it) = Some m
            ∧ query_after (it_request it') = sent_after (Some (member_id m))).
Proof.
  induction 1 as [| | l it _ _ _ Hreq _ | l it its l' _ _ _ Hreq Hpage _ [IHhead IHnext]].
  - split; [intros it [=] | intros i it it' [=]].
  - split; [intros it [=] | intros i it it' [=]].
  - split.
    + intros it0 [= <-]. rewrite Hreq. reflexivity.
    + intros [| i] it0 it' Hi Hi'; simpl in Hi'; discriminate.
  - split.
    + intros it0 [= <-]. rewrite Hreq. reflexivity.
    + intros [| i] it0 it' Hi Hi'; simpl in Hi, Hi'.
      * injection Hi as <-.
        destruct (last (it_page it)) as [m |] eqn:Hlast;
          [| by apply last_None in Hlast].
        exists m. split; [done |].
        rewrite (IHhead it') by (by rewrite head_lookup).
        simpl. rewrite Hlast. reflexivity.
      * by apply (IHnext i).
Qed.

(** In a page in ascending order the last member has the highest id. *)
Lemma last_ascending_highest page m :
  ascending member_id page → last page = Some m → highest_id member_id page (member_id m).
Proof.
  intros Hasc Hlast. rewrite last_lookup in Hlast. split.
  - exists m. split; [| done]. by eapply list_elem_of_lookup_2.
  - intros m' Hin. apply list_elem_of_lookup in Hin as [i Hi].
    pose proof (lookup_lt_Some _ _ _ Hi) as Hlt.
    destruct (decide (i = pred (length page))) as [-> | Hne].
    + rewrite Hi in Hlast. injection Hlast as <-. reflexivity.
    + apply (Hasc i (pred (length page))); [lia | done | done].
Qed.

(** The collection holds, for every id, the member that came last with it. *)
Lemma merge_page_get page c k :
  Collection.get k (merge_page page c)
  = match last (filter (λ m, member_id m = k) page) with
    | Some m => Some m
    | None => Collection.get k c
    end.
Proof.
  revert c. induction page as [| m page IH]; intros c; simpl.
  - reflexivity.
  - unfold merge_page in *. simpl. rewrite IH, Collection_get_set.
    destruct (decide (member_id m = k)) as [<- | Hne].
    + rewrite filter_cons_True by done. rewrite last_cons.
      destruct (last _); [reflexivity |].
      destruct (decide (member_id m = member_id m)); done.
    + rewrite filter_cons_False by done.
      destruct (last _); [reflexivity |].
      destruct (decide (k = member_id m)); [congruence | reflexivity].
Qed.

(** So does the members cache. *)
Lemma store_page_lookup page (c : Cache Member) k :
  cached_members (foldl cache_set_member c page) !! k
  = match last (filter (λ m, member_id m = k) page) with
    | Some m => Some m
    | None => cached_members c !! k
    end.
Proof.
  revert c. induction page as [| m page IH]; intros c; simpl.
  - reflexivity.
  - rewrite IH. simpl.
    destruct (decide (member_id m = k)) as [<- | Hne].
    + rewrite filter_cons_True by done. rewrite last_cons.
      destruct (last _); [reflexivity |]. by rewrite lookup_insert_eq.
    + rewrite filter_cons_False by done.
      destruct (last _); [reflexivity |]. by rewrite lookup_insert_ne.
Qed.

Lemma store_page_guilds page (c : Cache Member) :
  cached_guilds (foldl cache_set_member c page) = cached_guilds c.
Proof.
  revert c. induction page as [| m page IH]; intros c; simpl; [done |].
  by rewrite IH.
Qed.

Lemma merge_page_size page c :
  Collection.size c <= Collection.size (merge_page page c)
                    <= Collection.size c + Z.of_nat (length page).
Proof.
  revert c. induction page as [| m page IH]; intros c; simpl.
  - unfold merge_page. simpl. lia.
  - unfold merge_page in *. simpl.
    pose proof (IH (Collection.set (member_id m) m c)).
    pose proof (Collection_size_set (member_id m) m c). lia.
Qed.

Lemma Paginates_step_inv guildID guild l its l' :
  Paginates guildID guild l its l' →
  Collection.size (members l) < target guild l →
  0 < membersLeft l →
  ∃ it its',
    its = it :: its'
    ∧ it_request it = page_request guildID l
    ∧ ((it_page it = [] ∧ its' = [] ∧ l' = l)
       ∨ (it_page it ≠ [] ∧ Paginates guildID guild (next_locals l (it_page it)) its' l')).
Proof.
  intros Hp Hsize Hleft. inversion Hp; subst; try lia.
  - eexists _, _. split; [reflexivity |]. split; [done |]. left. done.
  - eexists _, _. split; [reflexivity |]. split; [done |]. right. done.
Qed.

Lemma Paginates_stop_inv guildID guild l its l' :
  Paginates guildID guild l its l' →
  membersLeft l <= 0 →
  its = [] ∧ l' = l.
Proof. intros Hp Hleft. inversion Hp; subst; try lia; done. Qed.

Lemma target_next_locals guild l page :
  target guild (next_locals l page) = target guild l.
Proof. reflexivity. Qed.

Lemma membersLeft_next_locals l page :
  membersLeft (next_locals l page) = membersLeft l - 1000.
Proof. reflexivity. Qed.

Lemma collected_next_locals l page :
  members (next_locals l page) = merge_page page (members l).
Proof. reflexivity. Qed.

Lemma page_request_query_limit guildID l :
  query_limit (page_request guildID l)
  = if 1000 <? membersLeft l then 1000 else membersLeft l.
Proof. reflexivity. Qed.

End PaginationFacts.

(** ** [getMembers] *)

Section GetMembers.

Variable GUILD_MEMBERS : Z.
Context {MemberCreatePayload Member : Type}.
Variable createMemberStruct : MemberCreatePayload → string → Member.
Variable member_id : Member → string.
Context {RestState : Type}.
Variable RequestManager_get :
  RestState → MembersRequest → list MemberCreatePayload * RestState.

Local Abbreviation getMembers :=
  (getMembers GUILD_MEMBERS createMemberStruct member_id RequestManager_get).
Local Abbreviation served := (served createMemberStruct RequestManager_get).
Local Abbreviation Paginates := (Paginates member_id).
Local Abbreviation iteration_events := (iteration_events member_id).
Local Abbreviation cache_set_member := (cache_set_member member_id).

Implicit Types (w : World Member RestState) (its : list (Iteration Member)).

(** C9: whatever the options and their limit, [getMembers] throws
    MISSING_INTENT_GUILD_MEMBERS when the intents of the identify payload
    are 0, and leaves the world as it was: no REST request, no cache
    write. *)
Theorem getMembers_zero_intents identifyPayload guildID options w :
  intents identifyPayload = 0 →
  getMembers identifyPayload guildID options w
  = Some (Throw MISSING_INTENT_GUILD_MEMBERS, w).
Proof.
  intros H. unfold getMembers.
  assert (intent_missing GUILD_MEMBERS identifyPayload = true) as ->
    by (apply intent_missing_true; auto).
  reflexivity.
Qed.

(** C4, amended: once the intent check has passed, [getMembers] on a guild
    id that the guilds cache does not hold throws GUILD_NOT_FOUND, whatever
    the options hold -- [force] included -- and sends no REST request. *)
Theorem getMembers_unknown_guild identifyPayload guildID options w :
  intent_missing GUILD_MEMBERS identifyPayload = false →
  cached_guilds (cache w) !! guildID = None →
  getMembers identifyPayload guildID options w = Some (Throw GUILD_NOT_FOUND, w).
Proof. intros Hi Hg. unfold getMembers. rewrite Hi, Hg. reflexivity. Qed.

(** C5: every page request asks for at least 1 and at most 1000 members, and
    the loop of [getMembers] returns after a pagination: it goes on while
    the collection is below the target (the requested limit, or the guild's
    member count when there is none), something is left to fetch and the
    page that came back is not empty, and it stops at the first of these
    that fails. *)
Theorem getMembers_pagination identifyPayload guildID options w guild :
  intent_missing GUILD_MEMBERS identifyPayload = false →
  cached_guilds (cache w) !! guildID = Some guild →
  ∃ its l' w',
    getMembers identifyPayload guildID options w = Some (Return (members l'), w')
    ∧ served guildID (rest w) its
    ∧ trace w' = trace w ++ flat_map iteration_events its
    ∧ Forall (λ it, 1 <= query_limit (it_request it) <= 1000) its
    ∧ Paginates guildID guild (initial_locals Member guild options) its l'
    ∧ (∀ (i : nat) it, its !! i = Some it → (S i < length its)%nat → it_page it ≠ [])
    ∧ ((∃ it, last its = Some it ∧ it_page it = [])
       ∨ target guild l' <= Collection.size (members l')
       ∨ membersLeft l' <= 0).
Proof.
  intros Hi Hg.
  destruct (getMembers_run GUILD_MEMBERS createMemberStruct member_id
              RequestManager_get identifyPayload guildID options w guild Hi Hg)
    as (its & l' & w' & Hret & Hp & Hs & Ht & _).
  exists its, l', w'. repeat split; try done.
  - by eapply Paginates_limits.
  - by eapply Paginates_pages.
  - by eapply Paginates_end.
Qed.

(** C6, amended: the first page request carries the caller's [after] cursor,
    none when the caller gave none; every later request carries the id of
    the last member of the page before it (left out when that id is the
    empty string), which is the highest id of that page when the page is in
    ascending order of id. *)
Theorem getMembers_after_cursor identifyPayload guildID options w guild :
  intent_missing GUILD_MEMBERS identifyPayload = false →
  cached_guilds (cache w) !! guildID = Some guild →
  ∃ its l' w',
    getMembers identifyPayload guildID options w = Some (Return (members l'), w')
    ∧ served guildID (rest w) its
    ∧ trace w' = trace w ++ flat_map iteration_events its
    ∧ (∀ it, head its = Some it →
         query_after (it_request it) = sent_after (options ≫= GetMemberOptions.after))
    ∧ (∀ (i : nat) it it', its !! i = Some it → its !! S i = Some it' →
         ∃ m, last (it_page it) = Some m
              ∧ query_after (it_request it') = sent_after (Some (member_id m))
              ∧ (ascending member_id (it_page it) →
                 highest_id member_id (it_page it) (member_id m))).
Proof.
  intros Hi Hg.
  destruct (getMembers_run GUILD_MEMBERS createMemberStruct member_id
              RequestManager_get identifyPayload guildID options w guild Hi Hg)
    as (its & l' & w' & Hret & Hp & Hs & Ht & _).
  exists its, l', w'.
  destruct (Paginates_cursors _ _ _ _ _ _ Hp) as [Hhead Hnext].
  repeat split; try done.
  intros i it it' Hit Hit'.
  destruct (Hnext i it it' Hit Hit') as (m & Hlast & Hafter).
  exists m. split; [done |]. split; [done |].
  intros Hasc. by apply last_ascending_highest.
Qed.

(** C7: on a cached guild of 2500 known members, without a limit in the
    options and with a dispatcher that returns as many members as each query
    asks for, [getMembers] makes exactly three round trips, for 1000, 1000
    and 500 members in that order, and returns after the third: no page it
    receives is empty. *)
Theorem getMembers_2500 identifyPayload guildID options w guild :
  intent_missing GUILD_MEMBERS identifyPayload = false →
  cached_guilds (cache w) !! guildID = Some guild →
  Guild.memberCount guild = 2500 →
  options ≫= GetMemberOptions.limit = None →
  (∀ s request,
     length (RequestManager_get s request).1 = Z.to_nat (query_limit request)) →
  ∃ it1 it2 it3 l' w',
    getMembers identifyPayload guildID options w = Some (Return (members l'), w')
    ∧ served guildID (rest w) [it1; it2; it3]
    ∧ trace w' = trace w ++ flat_map iteration_events [it1; it2; it3]
    ∧ query_limit (it_request it1) = 1000
    ∧ query_limit (it_request it2) = 1000
    ∧ query_limit (it_request it3) = 500
    ∧ length (it_page it1) = 1000%nat
    ∧ length (it_page it2) = 1000%nat
    ∧ length (it_page it3) = 500%nat.
Proof.
  intros Hi Hg Hcount Hlimit Hobey.
  destruct (getMembers_run GUILD_MEMBERS createMemberStruct member_id
              RequestManager_get identifyPayload guildID options w guild Hi Hg)
    as (its & l' & w' & Hret & Hp & Hs & Ht & _).
  assert (Hpage : ∀ s it its0, served guildID s (it :: its0) →
            length (it_page it) = Z.to_nat (query_limit (it_request it))).
  { intros s it its0 [-> _]. rewrite length_map. apply Hobey. }
  remember (initial_locals Member guild options) as l0 eqn:Hl0.
  assert (Htarget : target guild l0 = 2500).
  { subst l0. unfold target. simpl. rewrite Hlimit. simpl. done. }
  assert (Hleft0 : membersLeft l0 = 2500).
  { subst l0. simpl. rewrite Hlimit. simpl. done. }
  assert (Hsize0 : Collection.size (members l0) = 0) by (subst l0; reflexivity).
  clear Hl0.
  pose proof Hs as Hserved.
  (* first round trip *)
  destruct (Paginates_step_inv member_id _ _ _ _ _ Hp) as (it1 & its1 & -> & Hr1 & Hcase);
    [lia | lia |].
  pose proof (Hpage _ _ _ Hs) as Hlen1.
  assert (Hq1 : query_limit (it_request it1) = 1000).
  { rewrite Hr1, page_request_query_limit, Hleft0. reflexivity. }
  rewrite Hq1 in Hlen1.
  destruct Hcase as [(Hempty & _) | (_ & Hp1)];
    [rewrite Hempty in Hlen1; simpl in Hlen1; lia |].
  destruct Hs as [_ Hs].
  pose proof (merge_page_size member_id (it_page it1) (members l0)) as Hsz1.
  remember (next_locals member_id l0 (it_page it1)) as l1 eqn:Hl1.
  assert (Htarget1 : target guild l1 = 2500) by (subst l1; by rewrite target_next_locals).
  assert (Hleft1 : membersLeft l1 = 1500)
    by (subst l1; rewrite membersLeft_next_locals; lia).
  assert (Hsize1 : Collection.size (members l1) <= 1000)
    by (subst l1; rewrite collected_next_locals; lia).
  clear Hl1.
  (* second round trip *)
  destruct (Paginates_step_inv member_id _ _ _ _ _ Hp1) as (it2 & its2 & -> & Hr2 & Hcase);
    [lia | lia |].
  pose proof (Hpage _ _ _ Hs) as Hlen2.
  assert (Hq2 : query_limit (it_request it2) = 1000).
  { rewrite Hr2, page_request_query_limit, Hleft1. reflexivity. }
  rewrite Hq2 in Hlen2.
  destruct Hcase as [(Hempty & _) | (_ & Hp2)];
    [rewrite Hempty in Hlen2; simpl in Hlen2; lia |].
  destruct Hs as [_ Hs].
  pose proof (merge_page_size member_id (it_page it2) (members l1)) as Hsz2.
  remember (next_locals member_id l1 (it_page it2)) as l2 eqn:Hl2.
  assert (Htarget2 : target guild l2 = 2500) by (subst l2; by rewrite target_next_locals).
  assert (Hleft2 : membersLeft l2 = 500)
    by (subst l2; rewrite membersLeft_next_locals; lia).
  assert (Hsize2 : Collection.size (members l2) <= 2000)
    by (subst l2; rewrite collected_next_locals; lia).
  clear Hl2.
  (* third round trip *)
  destruct (Paginates_step_inv member_id _ _ _ _ _ Hp2) as (it3 & its3 & -> & Hr3 & Hcase);
    [lia | lia |].
  pose proof (Hpage _ _ _ Hs) as Hlen3.
  assert (Hq3 : query_limit (it_request it3) = 500).
  { rewrite Hr3, page_request_query_limit, Hleft2. reflexivity. }
  rewrite Hq3 in Hlen3.
  destruct Hcase as [(Hempty & _) | (_ & Hp3)];
    [rewrite Hempty in Hlen3; simpl in Hlen3; lia |].
  (* nothing is left *)
  destruct (Paginates_stop_inv member_id _ _ _ _ _ Hp3) as [-> _];
    [rewrite membersLeft_next_locals; lia |].
  exists it1, it2, it3, l', w'.
  split; [done |]. split; [done |]. split; [done |].
  repeat split; lia.
Qed.

(** C8, amended: the events of every round trip are the query, then the
    cache writes of all members of the page, then their insertions in the
    collection; the cache ends with all fetched members stored; and the
    returned collection holds under every id the member that arrived last
    with that id -- a later duplicate replaces the earlier entry. *)
Theorem getMembers_last_write_wins identifyPayload guildID options w guild :
  intent_missing GUILD_MEMBERS identifyPayload = false →
  cached_guilds (cache w) !! guildID = Some guild →
  ∃ its c w',
    getMembers identifyPayload guildID options w = Some (Return c, w')
    ∧ served guildID (rest w) its
    ∧ trace w' = trace w ++ flat_map iteration_events its
    ∧ cache w' = foldl cache_set_member (cache w) (flat_map it_page its)
    ∧ (∀ k, cached_members (cache w') !! k
            = match last (filter (λ m, member_id m = k) (flat_map it_page its)) with
              | Some m => Some m
              | None => cached_members (cache w) !! k
              end)
    ∧ (∀ k, Collection.get k c
            = last (filter (λ m, member_id m = k) (flat_map it_page its))).
Proof.
  intros Hi Hg.
  destruct (getMembers_run GUILD_MEMBERS createMemberStruct member_id
              RequestManager_get identifyPayload guildID options w guild Hi Hg)
    as (its & l' & w' & Hret & Hp & Hs & Ht & Hc).
  exists its, (members l'), w'. repeat split; try done.
  - intros k. rewrite Hc. apply store_page_lookup.
  - intros k. rewrite (Paginates_collected _ _ _ _ _ _ Hp), merge_page_get.
    simpl. destruct (last _); reflexivity.
Qed.

End GetMembers.

(** ** The theorems at work on the sample collaborators *)

Lemma getMembers_zero_intents_witness :
  getMembers Sample.GUILD_MEMBERS Sample.createMemberStruct Sample.id Sample.scripted
    {| intents := 0 |} "g"
    (Some {| GetMemberOptions.limit := Some 1; GetMemberOptions.after := None;
             GetMemberOptions.force := None |})
    (Sample.world 10 [])
  = Some (Throw MISSING_INTENT_GUILD_MEMBERS, Sample.world 10 []).
Proof.
  apply (getMembers_zero_intents Sample.GUILD_MEMBERS Sample.createMemberStruct
           Sample.id Sample.scripted {| intents := 0 |}).
  reflexivity.
Defined.

(** C4 as stated fails: with [force] set and the guild not cached,
    [getMembers] still throws GUILD_NOT_FOUND. *)
Lemma getMembers_force_ignored :
  getMembers Sample.GUILD_MEMBERS Sample.createMemberStruct Sample.id Sample.scripted
    {| intents := Sample.GUILD_MEMBERS |} "h"
    (Some {| GetMemberOptions.limit := None; GetMemberOptions.after := None;
             GetMemberOptions.force := Some true |})
    (Sample.world 10 [])
  = Some (Throw GUILD_NOT_FOUND, Sample.world 10 []).
Proof. reflexivity. Qed.

Lemma getMembers_unknown_guild_witness :
  getMembers Sample.GUILD_MEMBERS Sample.createMemberStruct Sample.id Sample.scripted
    {| intents := Sample.GUILD_MEMBERS |} "h" None (Sample.world 10 [])
  = Some (Throw GUILD_NOT_FOUND, Sample.world 10 []).
Proof.
  apply (getMembers_unknown_guild Sample.GUILD_MEMBERS Sample.createMemberStruct
           Sample.id Sample.scripted {| intents := Sample.GUILD_MEMBERS |});
    reflexivity.
Defined.

Lemma getMembers_pagination_witness :
  ∃ its c w',
    getMembers Sample.GUILD_MEMBERS Sample.createMemberStruct Sample.id Sample.scripted
      {| intents := Sample.GUILD_MEMBERS |} "g" None
      (Sample.world 1500 [[Sample.numbered 1]; [Sample.numbered 2]])
    = Some (Return c, w')
    ∧ Forall (λ it, 1 <= query_limit (it_request it) <= 1000) its
    ∧ trace w' = flat_map (iteration_events Sample.id) its.
Proof.
  destruct (getMembers_pagination Sample.GUILD_MEMBERS Sample.createMemberStruct
              Sample.id Sample.scripted {| intents := Sample.GUILD_MEMBERS |} "g" None
              (Sample.world 1500 [[Sample.numbered 1]; [Sample.numbered 2]])
              (Sample.guild 1500) eq_refl eq_refl)
    as (its & l' & w' & Hret & _ & Ht & Hlim & _).
  exists its, (members l'), w'. split; [exact Hret |]. split; [exact Hlim | exact Ht].
Defined.

(** C6 as stated fails: the dispatcher answers the first query with the
    members 2 and 1 in that order; the second query carries [after=1], the
    id of the last member, while the highest id of the page is 2. *)
Lemma getMembers_cursor_not_highest :
  let page := [ {| Sample.user_id := "2"; Sample.nick := "b" |};
                {| Sample.user_id := "1"; Sample.nick := "a" |} ] in
  let memberStructures := map (λ member, Sample.createMemberStruct member "g") page in
  (λ r, sent_requests (trace r.2))
    <$> getMembers Sample.GUILD_MEMBERS Sample.createMemberStruct Sample.id
          Sample.scripted {| intents := Sample.GUILD_MEMBERS |} "g" None
          (Sample.world 2000 [page])
  = Some [ {| route_guildID := "g"; query_limit := 1000; query_after := None |};
           {| route_guildID := "g"; query_limit := 1000; query_after := Some "1" |} ]
  ∧ highest_id Sample.id memberStructures "2"
  ∧ ¬ highest_id Sample.id memberStructures "1".
Proof.
  intros page memberStructures. split; [reflexivity |]. split.
  - split.
    + eexists. split; [apply list_elem_of_here | reflexivity].
    + intros m Hin. subst memberStructures page. simpl in Hin.
      apply elem_of_cons in Hin as [-> | Hin]; [vm_compute; discriminate |].
      apply elem_of_cons in Hin as [-> | Hin]; [vm_compute; discriminate |].
      inversion Hin.
  - intros [_ H].
    specialize (H (Sample.createMemberStruct
                     {| Sample.user_id := "2"; Sample.nick := "b" |} "g")
                  (list_elem_of_here _ _)).
    vm_compute in H. apply H. reflexivity.
Qed.

Lemma getMembers_after_cursor_witness :
  ∃ (its : list (Iteration Sample.Member)) c w',
    getMembers Sample.GUILD_MEMBERS Sample.createMemberStruct Sample.id Sample.scripted
      {| intents := Sample.GUILD_MEMBERS |} "g" None
      (Sample.world 1500 [[Sample.numbered 1]; [Sample.numbered 2]])
    = Some (Return c, w')
    ∧ ∀ it, head its = Some it → query_after (it_request it) = None.
Proof.
  destruct (getMembers_after_cursor Sample.GUILD_MEMBERS Sample.createMemberStruct
              Sample.id Sample.scripted {| intents := Sample.GUILD_MEMBERS |} "g" None
              (Sample.world 1500 [[Sample.numbered 1]; [Sample.numbered 2]])
              (Sample.guild 1500) eq_refl eq_refl)
    as (its & l' & w' & Hret & _ & _ & Hhead & _).
  exists its, (members l'), w'. split; [exact Hret | exact Hhead].
Defined.

Lemma obedient_length (s : nat) (request : MembersRequest) :
  length (Sample.obedient s request).1 = Z.to_nat (query_limit request).
Proof. unfold Sample.obedient. simpl. by rewrite length_map, length_seq. Qed.

Lemma getMembers_2500_witness :
  ∃ (it1 it2 it3 : Iteration Sample.Member) c w',
    getMembers Sample.GUILD_MEMBERS Sample.createMemberStruct Sample.id Sample.obedient
      {| intents := Sample.GUILD_MEMBERS |} "g" (Some Sample.no_options)
      (Sample.world 2500 1%nat)
    = Some (Return c, w')
    ∧ trace w' = flat_map (iteration_events Sample.id) [it1; it2; it3]
    ∧ map (λ it, query_limit (it_request it)) [it1; it2; it3] = [1000; 1000; 500].
Proof.
  destruct (getMembers_2500 Sample.GUILD_MEMBERS Sample.createMemberStruct
              Sample.id Sample.obedient {| intents := Sample.GUILD_MEMBERS |} "g"
              (Some Sample.no_options) (Sample.world 2500 1%nat) (Sample.guild 2500)
              eq_refl eq_refl eq_refl eq_refl obedient_length)
    as (it1 & it2 & it3 & l' & w' & Hret & _ & Ht & H1 & H2 & H3 & _).
  exists it1, it2, it3, (members l'), w'.
  split; [exact Hret |]. split; [exact Ht |].
  simpl. rewrite H1, H2, H3. reflexivity.
Defined.

(** C8 as stated fails: two pages bring a member with the id 1, first under
    the name a, then under the name b; the collection that [getMembers]
    returns holds the later one. *)
Lemma getMembers_later_duplicate_overwrites :
  let first := {| Sample.user_id := "1"; Sample.nick := "a" |} in
  let second := {| Sample.user_id := "1"; Sample.nick := "b" |} in
  (λ r, (r.1, merged_members (trace r.2)))
    <$> getMembers Sample.GUILD_MEMBERS Sample.createMemberStruct Sample.id
          Sample.scripted {| intents := Sample.GUILD_MEMBERS |} "g" None
          (Sample.world 1001 [[first]; [second]])
  = Some (Return [("1", Sample.createMemberStruct second "g")],
          [Sample.createMemberStruct first "g"; Sample.createMemberStruct second "g"]).
Proof. reflexivity. Qed.

Lemma getMembers_last_write_wins_witness :
  ∃ (its : list (Iteration Sample.Member)) c w',
    getMembers Sample.GUILD_MEMBERS Sample.createMemberStruct Sample.id Sample.scripted
      {| intents := Sample.GUILD_MEMBERS |} "g" None
      (Sample.world 1500 [[Sample.numbered 1]; [Sample.numbered 2]])
    = Some (Return c, w')
    ∧ ∀ k, Collection.get k c
           = last (filter (λ m, Sample.id m = k) (flat_map it_page its)).
Proof.
  destruct (getMembers_last_write_wins Sample.GUILD_MEMBERS Sample.createMemberStruct
              Sample.id Sample.scripted {| intents := Sample.GUILD_MEMBERS |} "g" None
              (Sample.world 1500 [[Sample.numbered 1]; [Sample.numbered 2]])
              (Sample.guild 1500) eq_refl eq_refl)
    as (its & c & w' & Hret & _ & _ & _ & _ & Hget).
  exists its, c, w'. split; [exact Hret | exact Hget].
Defined.

(** * Further properties *)

(** ** The gateway helpers *)

(** X1: [fetchMembers] throws exactly when the caller's own limit is
    missing, 0 or above 1 and the intents of the identify payload are 0 (or
    the bit constant is); the error is MISSING_INTENT_GUILD_MEMBERS, and a
    throw leaves the caller's options object and the gateway untouched. *)
Theorem fetchMembers_decision GM identifyPayload calls guild options :
  let r := fetchMembers GM identifyPayload calls guild options in
  (r.1 = Return PendingMembers ∨ r.1 = Throw MISSING_INTENT_GUILD_MEMBERS)
  ∧ (r.1 = Throw MISSING_INTENT_GUILD_MEMBERS
     ↔ (match options ≫= FetchMembersOptions.limit with
        | Some n => n = 0 ∨ 1 < n
        | None => True
        end)
       ∧ (intents identifyPayload = 0 ∨ GM = 0))
  ∧ (r.1 = Throw MISSING_INTENT_GUILD_MEMBERS →
     r.2 = {| caller_options := options; gateway_calls := calls |}).
Proof.
  intros r. subst r. split; [| split].
  - unfold fetchMembers.
    destruct (limit_needs_intent options && intent_missing GM identifyPayload); auto.
  - unfold fetchMembers. rewrite <- intent_missing_true.
    assert (limit_needs_intent options = true
            ↔ match options ≫= FetchMembersOptions.limit with
              | Some n => n = 0 ∨ 1 < n
              | None => True
              end) as <-.
    { unfold limit_needs_intent.
      destruct (options ≫= FetchMembersOptions.limit) as [n |]; simpl; [| done].
      unfold JS.truthy_number. rewrite orb_true_iff, negb_true_iff, negb_false_iff.
      rewrite Z.eqb_eq, Z.ltb_lt. reflexivity. }
    destruct (limit_needs_intent options), (intent_missing GM identifyPayload);
      simpl; split; try done; intros [? ?]; done.
  - intros H. unfold fetchMembers in *.
    destruct (limit_needs_intent options && intent_missing GM identifyPayload);
      simpl in *; [done | discriminate].
Qed.

(** X2: when [fetchMembers] goes through, it calls [requestAllMembers] once,
    after the calls made before, and hands it the very options object the
    caller keeps; that object is the caller's unchanged when it has no user
    ids (none or an empty list), and its user ids and query are never
    touched. *)
Theorem fetchMembers_shares_options GM identifyPayload calls guild options :
  (fetchMembers GM identifyPayload calls guild options).1 = Return PendingMembers →
  let w := (fetchMembers GM identifyPayload calls guild options).2 in
  gateway_calls w
  = calls ++ [ {| call_guild := guild; call_options := caller_options w |} ]
  ∧ caller_options w ≫= FetchMembersOptions.userIDs
    = options ≫= FetchMembersOptions.userIDs
  ∧ caller_options w ≫= FetchMembersOptions.query
    = options ≫= FetchMembersOptions.query
  ∧ (options ≫= FetchMembersOptions.userIDs = None
     ∨ options ≫= FetchMembersOptions.userIDs = Some [] →
     caller_options w = options).
Proof.
  unfold fetchMembers.
  destruct (limit_needs_intent options && intent_missing GM identifyPayload);
    [discriminate |].
  intros _. simpl. split; [reflexivity |].
  destruct options as [o |]; simpl; [| by repeat split].
  destruct (FetchMembersOptions.userIDs o) as [ids |] eqn:Hids; simpl.
  - destruct ids as [| i ids]; simpl.
    + rewrite Hids. repeat split.
    + split; [done |]. split; [done |]. intros [H | H]; discriminate.
  - rewrite Hids. repeat split.
Qed.

Lemma fetchMembers_shares_options_witness :
  let options :=
    Some {| FetchMembersOptions.limit := Some 1;
            FetchMembersOptions.userIDs := Some [];
            FetchMembersOptions.query := Some "al" |} in
  caller_options
    (fetchMembers Sample.GUILD_MEMBERS {| intents := 0 |} [] (Sample.guild 5) options).2
  = options.
Proof.
  intros options.
  destruct (fetchMembers_shares_options Sample.GUILD_MEMBERS {| intents := 0 |} []
              (Sample.guild 5) options eq_refl) as (_ & _ & _ & H).
  apply H. right. reflexivity.
Defined.

(** X3: the two revisions of [fetchMembers] decide alike and normalise
    alike: on the same options (with [userIDs] read as [userIds]) and the
    same intents, one throws exactly when the other does, the caller's
    object ends up the same, and so do the options of the request. *)
Theorem fetchMembers_revisions_agree GM identifyPayload calls calls'
    guild guildId shardId options :
  let r := fetchMembers GM identifyPayload calls guild options in
  let r' := Revision.fetchMembers GM identifyPayload calls' guildId shardId
              (to_revision <$> options) in
  (r.1 = Throw MISSING_INTENT_GUILD_MEMBERS ↔ r'.1 = Throw MISSING_INTENT_GUILD_MEMBERS)
  ∧ Revision.caller_options r'.2 = to_revision <$> caller_options r.2
  ∧ (r.1 = Return PendingMembers →
     gateway_calls r.2
     = calls ++ [ {| call_guild := guild; call_options := caller_options r.2 |} ]
     ∧ Revision.gateway_calls r'.2
       = calls' ++ [ {| Revision.call_guildId := guildId;
                        Revision.call_shardId := shardId;
                        Revision.call_options := to_revision <$> caller_options r.2 |} ]).
Proof.
  intros r r'. subst r r'. unfold fetchMembers, Revision.fetchMembers.
  assert (Revision.limit_needs_intent (to_revision <$> options)
          = limit_needs_intent options) as ->.
  { destruct options as [o |]; reflexivity. }
  change (Revision.intent_missing GM identifyPayload)
    with (intent_missing GM identifyPayload).
  assert (Revision.override_limit (to_revision <$> options)
          = to_revision <$> override_limit options) as Hov.
  { destruct options as [o |]; simpl; [| reflexivity].
    destruct (FetchMembersOptions.userIDs o) as [ids |]; simpl; [| reflexivity].
    destruct (JS.truthy_number (Z.of_nat (length ids))); reflexivity. }
  destruct (limit_needs_intent options && intent_missing GM identifyPayload); simpl.
  - split; [done |]. split; [done |]. discriminate.
  - rewrite Hov. split; [done |]. split; [done |]. done.
Qed.

(** X4: [getMembersByQuery] is [fetchMembers] without the intent guard.  For
    a cached guild it makes the call that [fetchMembers] makes on the options
    [{ query: name, limit }] (the limit defaulting to 1) whenever
    [fetchMembers] goes through, and it makes that call too where
    [fetchMembers] throws: with intents 0 and a limit of 0 or above 1. *)
Theorem getMembersByQuery_skips_guard {Member : Type} GM (c : Cache Member)
    calls guildID name limit guild :
  cached_guilds c !! guildID = Some guild →
  let options :=
    Some {| FetchMembersOptions.limit := Some (JS.nullish limit 1);
            FetchMembersOptions.userIDs := None;
            FetchMembersOptions.query := Some name |} in
  let by_query := getMembersByQuery c calls guildID name limit in
  by_query.1 = Return (Some PendingMembers)
  ∧ by_query.2 = calls ++ [ {| call_guild := guild; call_options := options |} ]
  ∧ (∀ identifyPayload,
       (fetchMembers GM identifyPayload calls guild options).1 = Return PendingMembers →
       gateway_calls (fetchMembers GM identifyPayload calls guild options).2 = by_query.2)
  ∧ (JS.nullish limit 1 = 0 ∨ 1 < JS.nullish limit 1 →
     (fetchMembers GM {| intents := 0 |} calls guild options).1
     = Throw MISSING_INTENT_GUILD_MEMBERS).
Proof.
  intros Hg options by_query. subst by_query.
  rewrite (getMembersByQuery_known_guild c calls guildID name limit guild Hg).
  simpl. split; [done |]. split; [done |]. split.
  - intros identifyPayload. unfold fetchMembers.
    destruct (limit_needs_intent options && intent_missing GM identifyPayload);
      [discriminate | reflexivity].
  - intros Hl. apply fetchMembers_throws. split; [| auto].
    unfold limit_needs_intent. simpl. unfold JS.truthy_number.
    destruct Hl as [-> | Hl]; [reflexivity |].
    apply orb_true_iff. right. by apply Z.ltb_lt.
Qed.

Lemma getMembersByQuery_skips_guard_witness :
  (getMembersByQuery (Sample.cache_of 10) [] "g" "al" (Some 5)).1
  = Return (Some PendingMembers)
  ∧ (fetchMembers Sample.GUILD_MEMBERS {| intents := 0 |} [] (Sample.guild 10)
       (Some {| FetchMembersOptions.limit := Some 5;
                FetchMembersOptions.userIDs := None;
                FetchMembersOptions.query := Some "al" |})).1
    = Throw MISSING_INTENT_GUILD_MEMBERS.
Proof.
  destruct (getMembersByQuery_skips_guard Sample.GUILD_MEMBERS (Sample.cache_of 10)
              [] "g" "al" (Some 5) (Sample.guild 10) eq_refl) as (H1 & _ & _ & H2).
  split; [exact H1 |]. apply H2. right. reflexivity.
Defined.

(** ** More about the collection *)

Section CollectionOrder.

Context {V : Type}.
Implicit Types (c : Collection.t V) (k : string) (v : V).

Lemma Collection_keys_set k v c :
  Collection.keys (Collection.set k v c)
  = if decide (k ∈ Collection.keys c) then Collection.keys c
    else Collection.keys c ++ [k].
Proof.
  unfold Collection.keys. induction c as [| [k0 v0] c IH]; simpl.
  - destruct (decide (k ∈ [])) as [H | _]; [inversion H | reflexivity].
  - destruct (decide (k = k0)) as [-> | Hne]; simpl.
    + destruct (decide (k0 ∈ k0 :: map fst c)) as [_ | H]; [reflexivity |].
      exfalso. apply H. apply list_elem_of_here.
    + rewrite IH.
      destruct (decide (k ∈ map fst c)) as [Hin | Hnin];
        destruct (decide (k ∈ k0 :: map fst c)) as [Hin' | Hnin']; try reflexivity.
      * exfalso. apply Hnin'. by apply list_elem_of_further.
      * exfalso. apply elem_of_cons in Hin' as [? | ?]; done.
Qed.

Lemma Collection_get_None k c :
  Collection.get k c = None ↔ k ∉ Collection.keys c.
Proof.
  unfold Collection.keys. induction c as [| [k0 v0] c IH]; simpl.
  - split; [intros _ H; inversion H | done].
  - destruct (decide (k = k0)) as [-> | Hne].
    + split; [discriminate |]. intros H. exfalso. apply H. apply list_elem_of_here.
    + rewrite IH. rewrite not_elem_of_cons. tauto.
Qed.

End CollectionOrder.

Lemma first_seen_elem_of ks k : k ∈ first_seen ks ↔ k ∈ ks.
Proof.
  induction ks as [| k0 ks IH]; simpl; [done |].
  rewrite !elem_of_cons, list_elem_of_filter, IH.
  destruct (decide (k = k0)); tauto.
Qed.

Lemma first_seen_NoDup ks : NoDup (first_seen ks).
Proof.
  induction ks as [| k0 ks IH]; simpl; [constructor |].
  constructor.
  - rewrite list_elem_of_filter. tauto.
  - by apply NoDup_filter.
Qed.

(** ** More about the pagination *)

Section MorePagination.

Variable GUILD_MEMBERS : Z.
Context {MemberCreatePayload Member : Type}.
Variable createMemberStruct : MemberCreatePayload → string → Member.
Variable member_id : Member → string.
Context {RestState : Type}.
Variable RequestManager_get :
  RestState → MembersRequest → list MemberCreatePayload * RestState.

Local Abbreviation getMembers :=
  (getMembers GUILD_MEMBERS createMemberStruct member_id RequestManager_get).
Local Abbreviation served := (served createMemberStruct RequestManager_get).
Local Abbreviation Paginates := (Paginates member_id).
Local Abbreviation iteration_events := (iteration_events member_id).
Local Abbreviation cache_set_member := (cache_set_member member_id).
Local Abbreviation merge_page := (merge_page member_id).
Local Abbreviation next_locals := (next_locals member_id).

Implicit Types (l : Locals Member) (w : World Member RestState)
  (it : Iteration Member) (its : list (Iteration Member)) (page : list Member).

Lemma ceil_div_step n : 0 < n →
  JS.ceil_div (Z.max 0 n) 1000 = 1 + JS.ceil_div (Z.max 0 (n - 1000)) 1000.
Proof.
  intros Hn. unfold JS.ceil_div.
  destruct (Z.le_gt_cases n 1000) as [Hle | Hgt].
  - rewrite (Z.max_l 0 (n - 1000)) by lia. rewrite (Z.max_r 0 n) by lia.
    assert ((- n) / 1000 = -1) as ->.
    { symmetry. apply (Z.div_unique (- n) 1000 (-1) (1000 - n)); lia. }
    reflexivity.
  - rewrite !Z.max_r by lia.
    replace (- (n - 1000)) with (- n + 1 * 1000) by lia.
    rewrite Z.div_add by lia. lia.
Qed.

Lemma ceil_div_nonneg n : 0 <= JS.ceil_div (Z.max 0 n) 1000.
Proof.
  unfold JS.ceil_div.
  assert ((- Z.max 0 n) / 1000 <= 0); [| lia].
  apply Z.div_le_upper_bound; lia.
Qed.

Lemma Paginates_count guildID guild l its l' :
  Paginates guildID guild l its l' →
  Z.of_nat (length its) <= JS.ceil_div (Z.max 0 (membersLeft l)) 1000.
Proof.
  induction 1 as [| | l it _ Hleft _ _ _ | l it its l' _ Hleft _ _ _ _ IH]; simpl length.
  - apply ceil_div_nonneg.
  - apply ceil_div_nonneg.
  - rewrite ceil_div_step by done.
    pose proof (ceil_div_nonneg (membersLeft l - 1000)). lia.
  - rewrite ceil_div_step by done.
    rewrite membersLeft_next_locals in IH. lia.
Qed.

Lemma Paginates_asked guildID guild l its l' :
  Paginates guildID guild l its l' →
  asked its <= Z.max 0 (membersLeft l).
Proof.
  induction 1 as [| | l it _ Hleft _ Hreq _ | l it its l' _ Hleft _ Hreq _ _ IH];
    unfold asked in *; simpl.
  - lia.
  - lia.
  - rewrite Hreq, page_request_query_limit.
    destruct (Z.ltb_spec 1000 (membersLeft l)); lia.
  - rewrite Hreq, page_request_query_limit.
    rewrite membersLeft_next_locals in IH.
    destruct (Z.ltb_spec 1000 (membersLeft l)); lia.
Qed.

Lemma Paginates_size guildID guild l its l' :
  Paginates guildID guild l its l' →
  Collection.size (members l') <= Collection.size (members l) + brought its.
Proof.
  intros Hp. rewrite (Paginates_collected _ _ _ _ _ _ Hp).
  pose proof (merge_page_size member_id (flat_map it_page its) (members l)).
  unfold brought. lia.
Qed.

(** A dispatcher that never returns more members than a query asks for
    brings at most what was asked. *)
Lemma served_brought guildID s its :
  (∀ s request,
     (length (RequestManager_get s request).1 <= Z.to_nat (query_limit request))%nat) →
  Forall (λ it, 1 <= query_limit (it_request it)) its →
  served guildID s its →
  brought its <= asked its.
Proof.
  intros Hconf. revert s. unfold brought, asked.
  induction its as [| it its IH]; intros s Hpos Hs; simpl.
  - lia.
  - destruct Hs as [Hpage Hs]. inversion Hpos as [| ? ? Hit Hpos']; subst.
    specialize (IH _ Hpos' Hs).
    rewrite length_app.
    assert (length (it_page it) <= Z.to_nat (query_limit (it_request it)))%nat.
    { rewrite Hpage, length_map. apply Hconf. }
    lia.
Qed.

Lemma merge_page_keys page c :
  Collection.keys (merge_page page c)
  = Collection.keys c
    ++ filter (λ k, k ∉ Collection.keys c) (first_seen (map member_id page)).
Proof.
  revert c. induction page as [| m page IH]; intros c; simpl.
  - by rewrite app_nil_r.
  - unfold merge_page in *. simpl. rewrite IH, Collection_keys_set.
    set (k := member_id m). set (ks := first_seen (map member_id page)).
    destruct (decide (k ∈ Collection.keys c)) as [Hin | Hnin].
    + rewrite filter_cons_False by (intros H; by apply H). f_equal.
      rewrite list_filter_filter. apply list_filter_iff.
      intros x. destruct (decide (x = k)) as [-> | ?]; intuition congruence.
    + rewrite filter_cons_True by done. rewrite <- app_assoc. simpl. do 2 f_equal.
      rewrite list_filter_filter. apply list_filter_iff.
      intros x. rewrite elem_of_app, list_elem_of_singleton.
      destruct (decide (x = k)) as [-> | ?]; intuition congruence.
Qed.

Lemma initial_membersLeft guild options :
  membersLeft (initial_locals Member guild options)
  = target guild (initial_locals Member guild options).
Proof. reflexivity. Qed.

Lemma sent_requests_app (t1 t2 : list (Event Member)) :
  sent_requests (t1 ++ t2) = sent_requests t1 ++ sent_requests t2.
Proof. apply omap_app. Qed.

(** The queries in the trace of a pagination are those of its round trips. *)
Lemma Paginates_sent_requests guildID guild l its l' :
  Paginates guildID guild l its l' →
  sent_requests (flat_map iteration_events its) = map it_request its.
Proof.
  assert (Hlog : ∀ l, sent_requests (page_log l) = []).
  { intros l0. unfold page_log. destruct (_ && _); reflexivity. }
  assert (Hset : ∀ page,
            sent_requests (map (λ m, CacheSet (member_id m) m) page) = []
            ∧ sent_requests (map (λ m, MembersSet (member_id m) m) page) = []).
  { intros page. induction page as [| m page [IH1 IH2]]; [done |]. done. }
  assert (Hit : ∀ l it, it_log it = page_log l →
            sent_requests (iteration_events it) = [it_request it]).
  { intros l0 it Hl. unfold iteration_events.
    rewrite sent_requests_app, Hl, Hlog. simpl.
    change (sent_requests (RestGet (it_request it) :: ?t))
      with (it_request it :: sent_requests t).
    rewrite sent_requests_app.
    destruct (Hset (it_page it)) as [-> ->]. reflexivity. }
  induction 1 as [| | l it _ _ Hl _ _ | l it its l' _ _ Hl _ _ _ IH]; simpl.
  - reflexivity.
  - reflexivity.
  - rewrite app_nil_r. by apply (Hit l).
  - rewrite sent_requests_app, IH, (Hit l) by done. reflexivity.
Qed.

(** X5: [getMembers] sends at most ⌈n / 1000⌉ page requests, [n] being
    the requested limit, or the guild's member count when no limit is given
    (none at all when [n] is not positive), and the members it asks for in
    all its queries together are at most [n]. *)
Theorem getMembers_request_budget identifyPayload guildID options w guild :
  intent_missing GUILD_MEMBERS identifyPayload = false →
  cached_guilds (cache w) !! guildID = Some guild →
  let n := JS.nullish (options ≫= GetMemberOptions.limit) (Guild.memberCount guild) in
  ∃ its c w',
    getMembers identifyPayload guildID options w = Some (Return c, w')
    ∧ sent_requests (trace w') = sent_requests (trace w) ++ map it_request its
    ∧ Z.of_nat (length its) <= JS.ceil_div (Z.max 0 n) 1000
    ∧ asked its <= Z.max 0 n.
Proof.
  intros Hi Hg n.
  destruct (getMembers_run GUILD_MEMBERS createMemberStruct member_id
              RequestManager_get identifyPayload guildID options w guild Hi Hg)
    as (its & l' & w' & Hret & Hp & Hs & Ht & _).
  exists its, (members l'), w'. split; [done |]. split; [| split].
  - by rewrite Ht, sent_requests_app, (Paginates_sent_requests _ _ _ _ _ Hp).
  - apply (Paginates_count _ _ _ _ _ Hp).
  - apply (Paginates_asked _ _ _ _ _ Hp).
Qed.

(** X6: when the dispatcher never returns more members than a query asks
    for, the collection that [getMembers] returns has at most [n] members,
    [n] being the requested limit, or the guild's member count when no limit
    is given. *)
Theorem getMembers_size_bound identifyPayload guildID options w guild :
  intent_missing GUILD_MEMBERS identifyPayload = false →
  cached_guilds (cache w) !! guildID = Some guild →
  (∀ s request,
     (length (RequestManager_get s request).1 <= Z.to_nat (query_limit request))%nat) →
  let n := JS.nullish (options ≫= GetMemberOptions.limit) (Guild.memberCount guild) in
  ∃ c w',
    getMembers identifyPayload guildID options w = Some (Return c, w')
    ∧ Collection.size c <= Z.max 0 n.
Proof.
  intros Hi Hg Hconf n.
  destruct (getMembers_run GUILD_MEMBERS createMemberStruct member_id
              RequestManager_get identifyPayload guildID options w guild Hi Hg)
    as (its & l' & w' & Hret & Hp & Hs & _).
  exists (members l'), w'. split; [done |].
  pose proof (Paginates_size _ _ _ _ _ Hp) as Hsize.
  pose proof (Paginates_asked _ _ _ _ _ Hp) as Hasked.
  assert (brought its <= asked its) as Hb.
  { eapply served_brought; [done | | done].
    eapply Forall_impl; [by eapply Paginates_limits |]. simpl. intros; lia. }
  change (Collection.size (members (initial_locals Member guild options))) with 0
    in Hsize.
  change (membersLeft (initial_locals Member guild options)) with n in Hasked.
  lia.
Qed.

(** X7: every entry of the collection that [getMembers] returns sits under
    the id of its member, and when [getMembers] returns the members cache
    holds that same member under that id. *)
Theorem getMembers_result_cached identifyPayload guildID options w guild :
  intent_missing GUILD_MEMBERS identifyPayload = false →
  cached_guilds (cache w) !! guildID = Some guild →
  ∃ c w',
    getMembers identifyPayload guildID options w = Some (Return c, w')
    ∧ ∀ k m, Collection.get k c = Some m →
        member_id m = k ∧ cached_members (cache w') !! k = Some m.
Proof.
  intros Hi Hg.
  destruct (getMembers_run GUILD_MEMBERS createMemberStruct member_id
              RequestManager_get identifyPayload guildID options w guild Hi Hg)
    as (its & l' & w' & Hret & Hp & Hs & Ht & Hc).
  exists (members l'), w'. split; [done |].
  intros k m. rewrite (Paginates_collected _ _ _ _ _ _ Hp), merge_page_get.
  rewrite Hc, store_page_lookup.
  destruct (last _) as [m' |] eqn:Hlast; simpl; [| discriminate].
  intros [= ->]. split; [| done].
  apply last_Some_elem_of, list_elem_of_filter in Hlast. tauto.
Qed.

(** X8: whatever [getMembers] comes back with, the guilds table of the cache
    is as before and no member that was cached has been dropped; when it
    throws, the whole world is as before. *)
Theorem getMembers_keeps_cache identifyPayload guildID options w :
  ∃ r w',
    getMembers identifyPayload guildID options w = Some (r, w')
    ∧ cached_guilds (cache w') = cached_guilds (cache w)
    ∧ (∀ k, is_Some (cached_members (cache w) !! k) →
            is_Some (cached_members (cache w') !! k))
    ∧ (∀ e, r = Throw e → w' = w).
Proof.
  destruct (intent_missing GUILD_MEMBERS identifyPayload) eqn:Hi.
  - exists (Throw MISSING_INTENT_GUILD_MEMBERS), w.
    unfold getMembers. rewrite Hi. done.
  - destruct (cached_guilds (cache w) !! guildID) as [guild |] eqn:Hg.
    + destruct (getMembers_run GUILD_MEMBERS createMemberStruct member_id
                  RequestManager_get identifyPayload guildID options w guild Hi Hg)
        as (its & l' & w' & Hret & _ & _ & _ & Hc).
      exists (Return (members l')), w'. split; [done |]. rewrite Hc. split; [| split].
      * apply store_page_guilds.
      * intros k Hk. rewrite store_page_lookup. destruct (last _); [by eexists | done].
      * discriminate.
    + exists (Throw GUILD_NOT_FOUND), w.
      unfold getMembers. rewrite Hi, Hg. done.
Qed.

(** X9: when the requested limit is 0 or less -- or, without a limit, the
    guild's member count is -- [getMembers] returns an empty collection at
    once: no REST request, no cache write.  A limit of 0 does not stand for
    the whole guild here. *)
Theorem getMembers_nothing_to_fetch identifyPayload guildID options w guild :
  intent_missing GUILD_MEMBERS identifyPayload = false →
  cached_guilds (cache w) !! guildID = Some guild →
  JS.nullish (options ≫= GetMemberOptions.limit) (Guild.memberCount guild) <= 0 →
  getMembers identifyPayload guildID options w = Some (Return Collection.empty, w).
Proof.
  intros Hi Hg Hn. unfold getMembers. rewrite Hi, Hg.
  set (n := JS.nullish _ _) in *.
  assert (∀ fuel, while_loop createMemberStruct member_id RequestManager_get fuel
                    guildID guild
                    {| options := options; members := Collection.empty;
                       membersLeft := n; loops := 1 |} w
                  = Some ({| options := options; members := Collection.empty;
                             membersLeft := n; loops := 1 |}, w)) as ->.
  { intros fuel.
    assert (loop_cond guild
              {| options := options; members := @Collection.empty Member;
                 membersLeft := n; loops := 1 |} = false) as Hc.
    { apply loop_cond_false. simpl. lia. }
    destruct fuel; simpl; rewrite Hc; reflexivity. }
  reflexivity.
Qed.


(** X11: a limit between 1 and 1000 (or, without a limit, such a member
    count) costs exactly one page request: it asks for that many members at
    the caller's cursor, and the loop ends whatever comes back. *)
Theorem getMembers_single_page identifyPayload guildID options w guild :
  intent_missing GUILD_MEMBERS identifyPayload = false →
  cached_guilds (cache w) !! guildID = Some guild →
  let n := JS.nullish (options ≫= GetMemberOptions.limit) (Guild.memberCount guild) in
  0 < n <= 1000 →
  ∃ c w',
    getMembers identifyPayload guildID options w = Some (Return c, w')
    ∧ sent_requests (trace w')
      = sent_requests (trace w)
        ++ [ {| route_guildID := guildID; query_limit := n;
                query_after := sent_after (options ≫= GetMemberOptions.after) |} ].
Proof.
  intros Hi Hg n Hn.
  destruct (getMembers_run GUILD_MEMBERS createMemberStruct member_id
              RequestManager_get identifyPayload guildID options w guild Hi Hg)
    as (its & l' & w' & Hret & Hp & Hs & Ht & _).
  exists (members l'), w'. split; [done |].
  rewrite Ht, sent_requests_app, (Paginates_sent_requests _ _ _ _ _ Hp). f_equal.
  destruct (Paginates_step_inv member_id _ _ _ _ _ Hp) as (it & its' & -> & Hr & Hcase).
  { change (0 < n). lia. }
  { change (0 < n). lia. }
  assert (its' = []) as ->.
  { destruct Hcase as [(_ & H & _) | (_ & Hp')]; [done |].
    apply (Paginates_stop_inv member_id) in Hp' as [H _]; [done |].
    rewrite membersLeft_next_locals. change (n - 1000 <= 0). lia. }
  simpl. rewrite Hr. unfold page_request, sent_after. simpl. f_equal.
  fold n. destruct (Z.ltb_spec 1000 n); [lia | reflexivity].
Qed.

End MorePagination.

(** ** The other helpers *)

Lemma truthy_opt_bool_true b : truthy_opt_bool b = true ↔ b = Some true.
Proof. destruct b as [[|] |]; simpl; split; congruence. Qed.

Lemma Collection_of_entries_keyed {V : Type} (key : V → string) (l : list V) :
  Collection_of_entries (map (λ v, (key v, v)) l) = merge_page key l Collection.empty.
Proof.
  unfold Collection_of_entries, merge_page.
  generalize (@Collection.empty V). induction l as [| v l IH]; intros c; simpl.
  - reflexivity.
  - apply IH.
Qed.

Lemma check_days_None days : check_days days = None ↔ days_accepted days.
Proof.
  unfold check_days, days_accepted.
  destruct days as [d |]; simpl; [| done].
  unfold JS.truthy_number.
  destruct (Z.eqb_spec d 0) as [-> | Hd]; simpl; [split; auto |].
  destruct (Z.ltb_spec d 1); simpl; [split; [discriminate | lia] |].
  destruct (Z.ltb_spec 30 d); simpl; [split; [discriminate | lia] |].
  split; [lia | done].
Qed.

Lemma Set_add_elem_of s x y : y ∈ Set_add s x ↔ y ∈ s ∨ y = x.
Proof.
  unfold Set_add. destruct (decide (x ∈ s)) as [Hin | Hnin].
  - split; [auto |]. intros [? | ->]; done.
  - rewrite elem_of_app, list_elem_of_singleton. reflexivity.
Qed.

Lemma Set_add_NoDup s x : NoDup s → NoDup (Set_add s x).
Proof.
  intros Hs. unfold Set_add. destruct (decide (x ∈ s)) as [Hin | Hnin]; [done |].
  apply NoDup_app. split; [done |]. split; [| apply NoDup_singleton].
  intros y Hy Hy'. apply list_elem_of_singleton in Hy'. by subst.
Qed.

Lemma Set_add_head s x k : head s = Some k → head (Set_add s x) = Some k.
Proof.
  unfold Set_add. destruct (decide (x ∈ s)); [done |].
  destruct s; [discriminate | done].
Qed.

Lemma Set_add_all_elem_of xs s y : y ∈ foldl Set_add s xs ↔ y ∈ s ∨ y ∈ xs.
Proof.
  revert s. induction xs as [| x xs IH]; intros s; simpl.
  - split; [auto |]. intros [? | H]; [done | inversion H].
  - rewrite IH, Set_add_elem_of, elem_of_cons. tauto.
Qed.

Lemma Set_add_all_NoDup xs s : NoDup s → NoDup (foldl Set_add s xs).
Proof.
  revert s. induction xs as [| x xs IH]; intros s Hs; simpl; [done |].
  apply IH. by apply Set_add_NoDup.
Qed.

Lemma Set_add_all_head xs s k : head s = Some k → head (foldl Set_add s xs) = Some k.
Proof.
  revert s. induction xs as [| x xs IH]; intros s Hs; simpl; [done |].
  apply IH. by apply Set_add_head.
Qed.

Section HelperFacts.

Context {PermissionError : Type}.
Variable requireBotGuildPermissions : string → list string → option PermissionError.
Context {Response : Type}.
Variable RequestManager : Request → Response.
Context {MemberCreatePayload Member BannedUser Template : Type}.
Variable as_MemberCreatePayload : Response → MemberCreatePayload.
Variable createMemberStruct : MemberCreatePayload → string → Member.
Variable member_id : Member → string.
Variable pruned : Response → option Z.
Variable as_BannedUsers : Response → list BannedUser.
Variable ban_user_id : BannedUser → string.
Variable as_Emojis : Response → list Emoji.
Variable as_Emoji : Response → Emoji.
Variable createTemplateStruct : Response → Template.
Variable AuditLogs_value : string → option Z.
Context {ChannelCreatePayload Channel : Type}.
Variable calculateBits : list string → string.
Variable GUILD_TEXT : Z.
Variable as_ChannelCreatePayload : Response → ChannelCreatePayload.
Variable as_ChannelCreatePayloads : Response → list ChannelCreatePayload.
Variable createChannelStruct : ChannelCreatePayload → option string → Channel.
Variable channel_id : Channel → string.

Local Abbreviation createGuildChannel :=
  (createGuildChannel requireBotGuildPermissions RequestManager calculateBits
     GUILD_TEXT as_ChannelCreatePayload createChannelStruct channel_id).
Local Abbreviation getChannels :=
  (getChannels (PermissionError := PermissionError) RequestManager
     as_ChannelCreatePayloads createChannelStruct channel_id).
Local Abbreviation getMember :=
  (getMember (PermissionError := PermissionError) RequestManager
     as_MemberCreatePayload createMemberStruct member_id).
Local Abbreviation deleteChannel :=
  (deleteChannel requireBotGuildPermissions RequestManager).
Local Abbreviation getPruneCount :=
  (getPruneCount requireBotGuildPermissions RequestManager pruned).
Local Abbreviation pruneMembers :=
  (pruneMembers requireBotGuildPermissions RequestManager).
Local Abbreviation getAuditLogs :=
  (getAuditLogs requireBotGuildPermissions RequestManager AuditLogs_value).
Local Abbreviation getWidget :=
  (getWidget (PermissionError := PermissionError) RequestManager).
Local Abbreviation getWidgetImageUrl :=
  (getWidgetImageUrl (PermissionError := PermissionError)).
Local Abbreviation createGuildTemplate :=
  (createGuildTemplate requireBotGuildPermissions RequestManager createTemplateStruct).
Local Abbreviation editGuildTemplate :=
  (editGuildTemplate requireBotGuildPermissions RequestManager createTemplateStruct).
Local Abbreviation getBans :=
  (getBans requireBotGuildPermissions RequestManager as_BannedUsers ban_user_id).
Local Abbreviation getEmojis :=
  (getEmojis (PermissionError := PermissionError) RequestManager as_Emojis).
Local Abbreviation getEmoji :=
  (getEmoji (PermissionError := PermissionError) RequestManager as_Emoji).


(** X13: when [getMember] resolves to a member, it has sent the one request
    for that member of that guild, and the members cache holds the member
    under its id; every other cache entry and the guilds table are as
    before.  With [force] this holds for a guild that is not cached. *)
Theorem getMember_caches_result (c : Cache Member) guildID id force m :
  (getMember c guildID id force).1.1 = Resolves (Some m) →
  let c' := (getMember c guildID id force).1.2 in
  let request := {| method := GET; route := at_endpoint (GUILD_MEMBER guildID id);
                    payload := NoPayload |} in
  (getMember c guildID id force).2 = [request]
  ∧ m = createMemberStruct (as_MemberCreatePayload (RequestManager request)) guildID
  ∧ cached_members c' !! member_id m = Some m
  ∧ (∀ k, k ≠ member_id m → cached_members c' !! k = cached_members c !! k)
  ∧ cached_guilds c' = cached_guilds c
  ∧ (is_Some (cached_guilds c !! guildID) ∨ force = Some true).
Proof.
  unfold getMember. rewrite <- truthy_opt_bool_true.
  destruct (cached_guilds c !! guildID) as [g |] eqn:Hg,
           (truthy_opt_bool force) eqn:Hf; simpl; try discriminate;
    intros [= <-]; (split; [done |]); (split; [done |]);
    (split; [by rewrite lookup_insert_eq |]);
    (split; [intros k Hk; by rewrite lookup_insert_ne |]);
    (split; [done |]); eauto.
Qed.

(** X14: [deleteChannel] sends its DELETE exactly when the permission check
    passes, the guild is cached, and the channel is neither the guild's
    rules channel nor its public updates channel; otherwise it throws and
    sends nothing.  For the rules channel the error is
    RULES_CHANNEL_CANNOT_BE_DELETED, also when the same channel is the
    updates channel. *)
Theorem deleteChannel_protected (guilds : gmap string GuildStruct.t)
    guildID channelID reason :
  let r := deleteChannel guilds guildID channelID reason in
  let request := {| method := DELETE; route := at_endpoint (CHANNEL_BASE channelID);
                    payload := WithReason reason |} in
  (r = (Resolves (RequestManager request), [request])
   ∨ (∃ e, r = (Throws e, [])))
  ∧ (r = (Resolves (RequestManager request), [request])
     ↔ requireBotGuildPermissions guildID ["MANAGE_CHANNELS"] = None
       ∧ ∃ guild, guilds !! guildID = Some guild
                  ∧ GuildStruct.rulesChannelID guild ≠ Some channelID
                  ∧ GuildStruct.publicUpdatesChannelID guild ≠ Some channelID)
  ∧ (∀ guild,
       requireBotGuildPermissions guildID ["MANAGE_CHANNELS"] = None →
       guilds !! guildID = Some guild →
       GuildStruct.rulesChannelID guild = Some channelID →
       r = (Throws (ErrorMore RULES_CHANNEL_CANNOT_BE_DELETED), [])).
Proof.
  intros r request. subst r. unfold deleteChannel.
  destruct (requireBotGuildPermissions guildID ["MANAGE_CHANNELS"]) as [e |].
  { split; [right; by eexists |]. split; [| done].
    split; [discriminate | intros [? _]; done]. }
  destruct (guilds !! guildID) as [guild |].
  2:{ split; [right; by eexists |]. split; [| done].
      split; [discriminate | intros [_ (? & ? & _)]; done]. }
  destruct (decide (GuildStruct.rulesChannelID guild = Some channelID)) as [Hr | Hr].
  { split; [right; by eexists |]. split.
    - split; [discriminate |]. intros [_ (g & [= <-] & ? & _)]. done.
    - done. }
  destruct (decide (GuildStruct.publicUpdatesChannelID guild = Some channelID))
    as [Hu | Hu].
  { split; [right; by eexists |]. split.
    - split; [discriminate |]. intros [_ (g & [= <-] & _ & ?)]. done.
    - intros g _ [= <-] ?. done. }
  split; [by left |]. split.
  - split; [| done]. intros _. split; [done |]. by exists guild.
  - intros g _ [= <-] ?. done.
Qed.

(** X15: [pruneMembers] and [getPruneCount] send their request exactly when
    [days] is missing, 0, or between 1 and 30, and the permission check
    passes; [days] is checked first, so that a [days] outside that range
    makes both throw the same PRUNE_MIN_DAYS or PRUNE_MAX_DAYS whatever the
    permissions are. *)
Theorem prune_days guildID (options : PruneOptions.t) :
  let days := PruneOptions.days options in
  let allowed := requireBotGuildPermissions guildID ["KICK_MEMBERS"] in
  let post := {| method := POST; route := at_endpoint (GUILD_PRUNE guildID);
                 payload := SnakeCase options |} in
  let get := {| method := GET; route := at_endpoint (GUILD_PRUNE guildID);
                payload := SnakeCase options |} in
  (days_accepted days ∧ allowed = None →
   pruneMembers guildID options = (Resolves (RequestManager post), [post])
   ∧ getPruneCount guildID (Some options)
     = (Resolves (pruned (RequestManager get)), [get]))
  ∧ (¬ (days_accepted days ∧ allowed = None) →
     (pruneMembers guildID options).2 = []
     ∧ (getPruneCount guildID (Some options)).2 = [])
  ∧ (¬ days_accepted days →
     ∃ e, (e = PRUNE_MIN_DAYS ∨ e = PRUNE_MAX_DAYS)
          ∧ (pruneMembers guildID options).1 = Throws (ErrorMore e)
          ∧ (getPruneCount guildID (Some options)).1 = Throws (ErrorMore e)).
Proof.
  intros days allowed post get. subst days allowed.
  unfold pruneMembers, getPruneCount. simpl.
  pose proof (check_days_None (PruneOptions.days options)) as Hd.
  destruct (check_days (PruneOptions.days options)) as [e |] eqn:Hc.
  - assert (¬ days_accepted (PruneOptions.days options)) as Hn
      by (intros H; apply Hd in H; discriminate).
    split; [intros [? _]; done |]. split; [done |].
    intros _. exists e. split; [| done].
    unfold check_days in Hc.
    destruct (_ && _) in Hc; [injection Hc as <-; auto |].
    destruct (_ && _) in Hc; [injection Hc as <-; auto | discriminate].
  - assert (days_accepted (PruneOptions.days options)) as Hy by (by apply Hd).
    destruct (requireBotGuildPermissions guildID ["KICK_MEMBERS"]) as [e |].
    + split; [intros [_ ?]; done |]. split; [done |]. done.
    + split; [done |]. split; [intros H; exfalso; by apply H | done].
Qed.

(** X16: the [limit] that [getAuditLogs] sends is always between 1 and 100:
    the caller's when that is between 1 and 100, and 50 in every other
    case. *)
Theorem getAuditLogs_limit guildID (options : GetAuditLogsOptions.t) request :
  request ∈ (getAuditLogs guildID options).2 →
  ∃ query,
    payload request = Query query
    ∧ spread query = options
    ∧ 1 <= audit_limit query <= 100
    ∧ (∀ n, GetAuditLogsOptions.limit options = Some n → 1 <= n <= 100 →
            audit_limit query = n)
    ∧ ((∀ n, GetAuditLogsOptions.limit options = Some n → n < 1 ∨ 100 < n) →
       audit_limit query = 50).
Proof.
  unfold getAuditLogs.
  destruct (requireBotGuildPermissions guildID ["VIEW_AUDIT_LOG"]);
    simpl; intros Hin; [inversion Hin |].
  apply list_elem_of_singleton in Hin. subst request. simpl.
  eexists. split; [reflexivity |]. simpl. split; [reflexivity |].
  unfold audit_logs_limit, JS.truthy_number.
  destruct (GetAuditLogsOptions.limit options) as [n |].
  - destruct (Z.eqb_spec n 0), (Z.leb_spec 1 n), (Z.leb_spec n 100); simpl;
      (split; [lia |]); (split; [intros ? [= <-] ?; lia |]);
      intros Hall; try reflexivity; destruct (Hall n eq_refl); lia.
  - split; [lia |]. split; [discriminate | done].
Qed.

(** X17: [getWidget] and [getWidgetImageUrl] succeed in the same cases and
    fail with the same error.  With [force] set both go ahead whatever the
    cache holds; a failure is GUILD_NOT_FOUND for a guild that is not cached
    or GUILD_WIDGET_NOT_ENABLED for a cached guild whose widget is not on,
    and [getWidget] has then sent nothing.  The URL is the widget endpoint
    with [.png?style=] and the style, [shield] when none is given. *)
Theorem widget_helpers_agree (guilds : gmap string GuildStruct.t)
    guildID style force :
  let request := {| method := GET;
                    route := {| endpoint := GUILD_WIDGET guildID; suffix := ".json" |};
                    payload := NoPayload |} in
  let url := {| endpoint := GUILD_WIDGET guildID;
                suffix := ".png?style=" +:+ JS.nullish style "shield" |} in
  let widget := getWidget guilds guildID force in
  let image := getWidgetImageUrl guilds guildID style force in
  (∀ e, widget.1 = Throws e ↔ image = Throws e)
  ∧ (image = Resolves url ∨ ∃ e, image = Throws e)
  ∧ (image = Resolves url ↔ widget = (Resolves (RequestManager request), [request]))
  ∧ (force = Some true → image = Resolves url)
  ∧ (∀ e, image = Throws e →
       widget.2 = []
       ∧ ((e = Error GUILD_NOT_FOUND ∧ guilds !! guildID = None)
          ∨ (e = ErrorMore GUILD_WIDGET_NOT_ENABLED
             ∧ ∃ guild, guilds !! guildID = Some guild
                        ∧ GuildStruct.widgetEnabled guild ≠ Some true))).
Proof.
  unfold getWidget, getWidgetImageUrl, check_widget. simpl.
  destruct (truthy_opt_bool force) eqn:Hf.
  { repeat split; try done; auto. }
  assert (force ≠ Some true) as Hforce.
  { intros H. apply truthy_opt_bool_true in H. congruence. }
  destruct (guilds !! guildID) as [guild |].
  - destruct (truthy_opt_bool (GuildStruct.widgetEnabled guild)) eqn:Hw.
    + repeat split; try done; auto.
    + assert (GuildStruct.widgetEnabled guild ≠ Some true) as Hoff.
      { intros H. apply truthy_opt_bool_true in H. congruence. }
      split; [intros e; simpl; split; congruence |].
      split; [right; by eexists |].
      split; [split; discriminate |].
      split; [done |].
      intros e [= <-]. split; [done |]. right. split; [done |]. by exists guild.
  - split; [intros e; simpl; split; congruence |].
    split; [right; by eexists |].
    split; [split; discriminate |].
    split; [done |].
    intros e [= <-]. split; [done |]. by left.
Qed.

Lemma description_too_long_false description :
  description_too_long description = false
  ↔ match description with
    | Some d => (String.length d <= 120)%nat
    | None => True
    end.
Proof.
  unfold description_too_long, JS.truthy_number.
  destruct description as [d |]; [| done].
  destruct (Z.eqb_spec (Z.of_nat (String.length d)) 0),
           (Z.ltb_spec 120 (Z.of_nat (String.length d))); simpl; split; (done || lia).
Qed.

Lemma createGuildTemplate_sent guildID (data : CreateGuildTemplate.t) :
  (createGuildTemplate guildID data).2 ≠ [] →
  requireBotGuildPermissions guildID ["MANAGE_GUILD"] = None
  ∧ (1 <= String.length (CreateGuildTemplate.name data) <= 100)%nat
  ∧ description_too_long (CreateGuildTemplate.description data) = false.
Proof.
  unfold createGuildTemplate.
  destruct (requireBotGuildPermissions guildID ["MANAGE_GUILD"]); [done |].
  destruct (Z.ltb_spec (Z.of_nat (String.length (CreateGuildTemplate.name data))) 1);
    simpl; [done |].
  destruct (Z.ltb_spec 100 (Z.of_nat (String.length (CreateGuildTemplate.name data))));
    simpl; [done |].
  destruct (description_too_long (CreateGuildTemplate.description data)); [done |].
  intros _. repeat split; (done || lia).
Qed.

(** X18: [createGuildTemplate] sends its POST exactly when the permission
    check passes, the name has between 1 and 100 characters and the
    description, if there is one, has at most 120; otherwise it throws and
    sends nothing. *)
Theorem createGuildTemplate_checks guildID (data : CreateGuildTemplate.t) :
  let r := createGuildTemplate guildID data in
  let request := {| method := POST; route := at_endpoint (GUILD_TEMPLATES guildID);
                    payload := NewTemplate data |} in
  (r = (Resolves (createTemplateStruct (RequestManager request)), [request])
   ∨ ∃ e, r = (Throws e, []))
  ∧ (r = (Resolves (createTemplateStruct (RequestManager request)), [request])
     ↔ requireBotGuildPermissions guildID ["MANAGE_GUILD"] = None
       ∧ (1 <= String.length (CreateGuildTemplate.name data) <= 100)%nat
       ∧ match CreateGuildTemplate.description data with
         | Some d => (String.length d <= 120)%nat
         | None => True
         end).
Proof.
  intros r request. subst r. unfold createGuildTemplate.
  rewrite <- description_too_long_false.
  destruct (requireBotGuildPermissions guildID ["MANAGE_GUILD"]) as [e |].
  { split; [right; by eexists |]. split; [discriminate | intros [? _]; done]. }
  destruct (Z.ltb_spec (Z.of_nat (String.length (CreateGuildTemplate.name data))) 1);
    simpl.
  { split; [right; by eexists |]. split; [discriminate | intros (_ & ? & _); lia]. }
  destruct (Z.ltb_spec 100 (Z.of_nat (String.length (CreateGuildTemplate.name data))));
    simpl.
  { split; [right; by eexists |]. split; [discriminate | intros (_ & ? & _); lia]. }
  destruct (description_too_long (CreateGuildTemplate.description data)).
  { split; [right; by eexists |]. split; [discriminate | intros (_ & _ & ?); done]. }
  split; [by left |]. split; [intros _ | done]. repeat split; (done || lia).
Qed.

(** X19: [editGuildTemplate] sends its PATCH exactly when the permission
    check passes, the name, if there is one, has at most 100 characters --
    an empty name goes through -- and the description, if there is one, has
    at most 120.  So whatever name and description [createGuildTemplate]
    accepts, [editGuildTemplate] accepts too. *)
Theorem editGuildTemplate_checks guildID templateCode (data : EditGuildTemplate.t) :
  let r := editGuildTemplate guildID templateCode data in
  let request := {| method := PATCH;
                    route := {| endpoint := GUILD_TEMPLATES guildID;
                                suffix := "/" +:+ templateCode |};
                    payload := TemplateEdit data |} in
  (r = (Resolves (createTemplateStruct (RequestManager request)), [request])
   ∨ ∃ e, r = (Throws e, []))
  ∧ (r = (Resolves (createTemplateStruct (RequestManager request)), [request])
     ↔ requireBotGuildPermissions guildID ["MANAGE_GUILD"] = None
       ∧ match EditGuildTemplate.name data with
         | Some s => (String.length s <= 100)%nat
         | None => True
         end
       ∧ match EditGuildTemplate.description data with
         | Some d => (String.length d <= 120)%nat
         | None => True
         end)
  ∧ (∀ created,
       EditGuildTemplate.name data = Some (CreateGuildTemplate.name created) →
       EditGuildTemplate.description data = CreateGuildTemplate.description created →
       (createGuildTemplate guildID created).2 ≠ [] →
       r.2 = [request]).
Proof.
  intros r request.
  assert (Hname : edited_name_rejected (EditGuildTemplate.name data) = false
                  ↔ match EditGuildTemplate.name data with
                    | Some s => (String.length s <= 100)%nat
                    | None => True
                    end).
  { unfold edited_name_rejected, JS.truthy_number.
    destruct (EditGuildTemplate.name data) as [s |]; [| done].
    destruct (Z.eqb_spec (Z.of_nat (String.length s)) 0),
             (Z.ltb_spec (Z.of_nat (String.length s)) 1),
             (Z.ltb_spec 100 (Z.of_nat (String.length s))); simpl; split; (done || lia). }
  assert (Hiff : r = (Resolves (createTemplateStruct (RequestManager request)), [request])
                 ↔ requireBotGuildPermissions guildID ["MANAGE_GUILD"] = None
                   ∧ edited_name_rejected (EditGuildTemplate.name data) = false
                   ∧ description_too_long (EditGuildTemplate.description data) = false).
  { subst r. unfold editGuildTemplate.
    destruct (requireBotGuildPermissions guildID ["MANAGE_GUILD"]);
      [split; [discriminate | intros [? _]; done] |].
    destruct (edited_name_rejected (EditGuildTemplate.name data));
      [split; [discriminate | intros (_ & ? & _); done] |].
    destruct (description_too_long (EditGuildTemplate.description data));
      [split; [discriminate | intros (_ & _ & ?); done] |].
    done. }
  split; [| split].
  - subst r. unfold editGuildTemplate.
    destruct (requireBotGuildPermissions guildID ["MANAGE_GUILD"]);
      [right; by eexists |].
    destruct (edited_name_rejected _); [right; by eexists |].
    destruct (description_too_long _); [right; by eexists |]. by left.
  - rewrite Hiff, Hname, description_too_long_false. reflexivity.
  - intros created Hn Hd Hsent.
    apply createGuildTemplate_sent in Hsent as (Hp & Hlen & Hdesc).
    assert (r = (Resolves (createTemplateStruct (RequestManager request)), [request]))
      as ->; [| done].
    apply Hiff. split; [done |]. split.
    + apply Hname. rewrite Hn. lia.
    + by rewrite Hd.
Qed.

(** X20: with the permission, [getBans] resolves to a collection that holds
    every ban of the answer under the id of its user: an entry under a key
    is a ban of the answer for the user with that id -- the last one, if the
    answer names the user twice -- and every ban of the answer has its user's
    id as a key.  Without the permission it throws and sends nothing. *)
Theorem getBans_by_user_id guildID :
  let request := {| method := GET; route := at_endpoint (GUILD_BANS guildID);
                    payload := NoPayload |} in
  let results := as_BannedUsers (RequestManager request) in
  match requireBotGuildPermissions guildID ["BAN_MEMBERS"] with
  | Some e => getBans guildID = (Throws (Denied e), [])
  | None =>
      ∃ c, getBans guildID = (Resolves c, [request])
           ∧ (∀ k, Collection.get k c
                   = last (filter (λ res, ban_user_id res = k) results))
           ∧ (∀ k res, Collection.get k c = Some res →
                       ban_user_id res = k ∧ res ∈ results)
           ∧ (∀ res, res ∈ results → is_Some (Collection.get (ban_user_id res) c))
           ∧ Collection.size c <= Z.of_nat (length results)
  end.
Proof.
  intros request results. unfold getBans.
  destruct (requireBotGuildPermissions guildID ["BAN_MEMBERS"]); [done |].
  fold request. fold results. eexists. split; [reflexivity |].
  rewrite Collection_of_entries_keyed.
  assert (Hget : ∀ k, Collection.get k (merge_page ban_user_id results Collection.empty)
                      = last (filter (λ res, ban_user_id res = k) results)).
  { intros k. rewrite merge_page_get. simpl. by destruct (last _). }
  split; [exact Hget |]. split; [| split].
  - intros k res. rewrite Hget. intros Hlast.
    apply last_Some_elem_of, list_elem_of_filter in Hlast. done.
  - intros res Hin. rewrite Hget. apply last_is_Some.
    intros Hnil.
    assert (res ∈ filter (λ res0, ban_user_id res0 = ban_user_id res) results) as H
      by (by apply list_elem_of_filter).
    rewrite Hnil in H. inversion H.
  - pose proof (merge_page_size ban_user_id results Collection.empty) as H.
    change (Collection.size (@Collection.empty BannedUser)) with 0 in H. lia.
Qed.

(** X21: [getEmojis] sends its request in every case, also when it throws.
    With [addToCache] off it touches no guild.  With it on (the default), a
    guild that is not cached makes it throw GUILD_NOT_FOUND after the
    request; for a cached guild the stored guild differs from the old one
    in its emojis only, which hold every fetched emoji under its id, or
    under its name when it has no id, and keep what they held under other
    keys. *)
Theorem getEmojis_cache (guilds : gmap string GuildStruct.t) guildID addToCache :
  let request := {| method := GET; route := at_endpoint (GUILD_EMOJIS guildID);
                    payload := NoPayload |} in
  let result := as_Emojis (RequestManager request) in
  let r := getEmojis guilds guildID addToCache in
  r.2 = [request]
  ∧ (addToCache = Some false → r = (Resolves result, guilds, [request]))
  ∧ (addToCache ≠ Some false → guilds !! guildID = None →
     r = (Throws (Error GUILD_NOT_FOUND), guilds, [request]))
  ∧ (addToCache ≠ Some false → ∀ guild, guilds !! guildID = Some guild →
     ∃ emojis,
       r = (Resolves result,
            <[guildID := GuildStruct.set_emojis emojis guild]> guilds, [request])
       ∧ ∀ k, Collection.get k emojis
              = match last (filter (λ emoji, emoji_key emoji = k) result) with
                | Some emoji => Some emoji
                | None => Collection.get k (GuildStruct.emojis guild)
                end).
Proof.
  intros request result r. subst r. unfold getEmojis.
  fold request. fold result.
  destruct addToCache as [[|] |]; simpl.
  - destruct (guilds !! guildID) as [guild |]; simpl.
    + split; [done |]. split; [discriminate |]. split; [done |].
      intros _ g [= <-]. eexists. split; [reflexivity |].
      intros k. apply (merge_page_get emoji_key).
    + split; [done |]. split; [discriminate |]. split; done.
  - split; [done |]. split; [done |]. split; intros H; by destruct H.
  - destruct (guilds !! guildID) as [guild |]; simpl.
    + split; [done |]. split; [discriminate |]. split; [done |].
      intros _ g [= <-]. eexists. split; [reflexivity |].
      intros k. apply (merge_page_get emoji_key).
    + split; [done |]. split; [discriminate |]. split; done.
Qed.

(** X22: [getEmoji] with [addToCache] on and the guild cached stores the
    guild back with the fetched emoji under its id, or under its name when
    it has no id; the guild's other emojis and the other guilds are as
    before.  A guild that is not cached makes it throw GUILD_NOT_FOUND, the
    request having been sent. *)
Theorem getEmoji_cache (guilds : gmap string GuildStruct.t) guildID emojiID addToCache :
  addToCache ≠ Some false →
  let request := {| method := GET; route := at_endpoint (GUILD_EMOJI guildID emojiID);
                    payload := NoPayload |} in
  let result := as_Emoji (RequestManager request) in
  let r := getEmoji guilds guildID emojiID addToCache in
  match guilds !! guildID with
  | None => r = (Throws (Error GUILD_NOT_FOUND), guilds, [request])
  | Some guild =>
      ∃ guild',
        r = (Resolves result, <[guildID := guild']> guilds, [request])
        ∧ Collection.get (emoji_key result) (GuildStruct.emojis guild') = Some result
        ∧ (∀ k, k ≠ emoji_key result →
                Collection.get k (GuildStruct.emojis guild')
                = Collection.get k (GuildStruct.emojis guild))
        ∧ (∀ other, other ≠ guildID →
                    (<[guildID := guild']> guilds) !! other = guilds !! other)
  end.
Proof.
  intros Hadd request result r. subst r. unfold getEmoji.
  fold request. fold result.
  assert (JS.nullish addToCache true = true) as ->.
  { destruct addToCache as [[|] |]; done. }
  destruct (guilds !! guildID) as [guild |]; [| done].
  eexists. split; [reflexivity |]. simpl. split; [| split].
  - rewrite Collection_get_set. by destruct (decide _).
  - intros k Hk. rewrite Collection_get_set. by destruct (decide _).
  - intros other Hother. by rewrite lookup_insert_ne.
Qed.

(** X23: the permissions that [createGuildChannel] requires of the bot are
    MANAGE_CHANNELS first, then every permission that an overwrite of the
    options allows or denies, each one once and nothing else.  It sends its
    POST exactly when [requireBotGuildPermissions] accepts that list, and
    then the channels cache holds the channel it resolves to under the
    channel's id. *)
Theorem createGuildChannel_permissions (channels : gmap string Channel)
    guildID name (options : option ChannelCreateOptions.t) :
  let perms := requiredPerms options in
  let overwrites := JS.nullish (options ≫= ChannelCreateOptions.permissionOverwrites) [] in
  let r := createGuildChannel channels guildID name options in
  NoDup perms
  ∧ head perms = Some "MANAGE_CHANNELS"
  ∧ (∀ p, p ∈ perms
          ↔ p = "MANAGE_CHANNELS"
            ∨ ∃ overwrite, overwrite ∈ overwrites
                           ∧ (p ∈ allow overwrite ∨ p ∈ deny overwrite))
  ∧ (∀ e, requireBotGuildPermissions guildID perms = Some e →
          r = (Throws (Denied e), channels, []))
  ∧ (requireBotGuildPermissions guildID perms = None →
     ∃ channel request,
       r = (Resolves channel, <[channel_id channel := channel]> channels, [request])
       ∧ method request = POST
       ∧ route request = at_endpoint (GUILD_CHANNELS guildID)
       ∧ (<[channel_id channel := channel]> channels) !! channel_id channel
         = Some channel).
Proof.
  intros perms overwrites r.
  assert (Hfold : ∀ ows s,
            let s' := foldl (λ perms overwrite,
                               foldl Set_add (foldl Set_add perms (allow overwrite))
                                     (deny overwrite)) s ows in
            (NoDup s → NoDup s')
            ∧ (∀ k, head s = Some k → head s' = Some k)
            ∧ (∀ p, p ∈ s' ↔ p ∈ s ∨ ∃ overwrite, overwrite ∈ ows
                                   ∧ (p ∈ allow overwrite ∨ p ∈ deny overwrite))).
  { induction ows as [| ow ows IH]; intros s; simpl.
    - split; [done |]. split; [done |]. intros p. split; [auto |].
      intros [? | (? & H & _)]; [done | inversion H].
    - destruct (IH (foldl Set_add (foldl Set_add s (allow ow)) (deny ow)))
        as (IH1 & IH2 & IH3).
      split; [| split].
      + intros Hs. apply IH1. by do 2 apply Set_add_all_NoDup.
      + intros k Hk. apply IH2. by do 2 apply Set_add_all_head.
      + intros p. rewrite IH3, !Set_add_all_elem_of. split.
        * intros [[[? | ?] | ?] | (o & Ho & Hp)]; [by left | | |].
          -- right. exists ow. split; [apply list_elem_of_here | by left].
          -- right. exists ow. split; [apply list_elem_of_here | by right].
          -- right. exists o. split; [by apply list_elem_of_further | done].
        * intros [? | (o & Ho & Hp)]; [by left; left; left |].
          apply elem_of_cons in Ho as [-> | Ho]; [| right; by exists o].
          left. destruct Hp; [left; by right | by right]. }
  destruct (Hfold overwrites ["MANAGE_CHANNELS"]) as (H1 & H2 & H3).
  split; [apply H1, NoDup_singleton |].
  split; [by apply H2 |].
  split.
  { intros p. subst perms. unfold requiredPerms. fold overwrites.
    rewrite H3, list_elem_of_singleton. reflexivity. }
  subst r. unfold createGuildChannel. fold perms.
  destruct (requireBotGuildPermissions guildID perms) as [e |].
  - split; [by intros ? [= <-] | discriminate].
  - split; [discriminate |]. intros _.
    eexists _, _. split; [reflexivity |]. simpl.
    split; [done |]. split; [done |]. by rewrite lookup_insert_eq.
Qed.


End HelperFacts.

(** ** The further properties at work on the sample collaborators *)

Lemma getMembers_request_budget_witness :
  ∃ (its : list (Iteration Sample.Member)) c w',
    getMembers Sample.GUILD_MEMBERS Sample.createMemberStruct Sample.id Sample.scripted
      {| intents := Sample.GUILD_MEMBERS |} "g" None
      (Sample.world 1500 [[Sample.numbered 1]; [Sample.numbered 2]])
    = Some (Return c, w')
    ∧ Z.of_nat (length its) <= 2
    ∧ asked its <= 1500.
Proof.
  destruct (getMembers_request_budget Sample.GUILD_MEMBERS Sample.createMemberStruct
              Sample.id Sample.scripted {| intents := Sample.GUILD_MEMBERS |} "g" None
              (Sample.world 1500 [[Sample.numbered 1]; [Sample.numbered 2]])
              (Sample.guild 1500) eq_refl eq_refl)
    as (its & c & w' & Hret & _ & Hcount & Hasked).
  exists its, c, w'. split; [exact Hret |]. split; [exact Hcount | exact Hasked].
Defined.

Lemma obedient_conforms (s : nat) (request : MembersRequest) :
  (length (Sample.obedient s request).1 <= Z.to_nat (query_limit request))%nat.
Proof. unfold Sample.obedient. simpl. rewrite length_map, length_seq. constructor. Qed.

Lemma getMembers_size_bound_witness :
  ∃ c w',
    getMembers Sample.GUILD_MEMBERS Sample.createMemberStruct Sample.id Sample.obedient
      {| intents := Sample.GUILD_MEMBERS |} "g" (Some Sample.no_options)
      (Sample.world 2500 1%nat)
    = Some (Return c, w')
    ∧ Collection.size c <= 2500.
Proof.
  apply (getMembers_size_bound Sample.GUILD_MEMBERS Sample.createMemberStruct
           Sample.id Sample.obedient {| intents := Sample.GUILD_MEMBERS |} "g"
           (Some Sample.no_options) (Sample.world 2500 1%nat) (Sample.guild 2500)
           eq_refl eq_refl obedient_conforms).
Defined.

Lemma getMembers_result_cached_witness :
  ∃ c w',
    getMembers Sample.GUILD_MEMBERS Sample.createMemberStruct Sample.id Sample.scripted
      {| intents := Sample.GUILD_MEMBERS |} "g" None
      (Sample.world 1500 [[Sample.numbered 1]; [Sample.numbered 2]])
    = Some (Return c, w')
    ∧ ∀ k m, Collection.get k c = Some m →
        Sample.id m = k ∧ cached_members (cache w') !! k = Some m.
Proof.
  apply (getMembers_result_cached Sample.GUILD_MEMBERS Sample.createMemberStruct
           Sample.id Sample.scripted {| intents := Sample.GUILD_MEMBERS |} "g" None
           (Sample.world 1500 [[Sample.numbered 1]; [Sample.numbered 2]])
           (Sample.guild 1500) eq_refl eq_refl).
Defined.

Lemma getMembers_nothing_to_fetch_witness :
  getMembers Sample.GUILD_MEMBERS Sample.createMemberStruct Sample.id Sample.scripted
    {| intents := Sample.GUILD_MEMBERS |} "g"
    (Some {| GetMemberOptions.limit := Some 0; GetMemberOptions.after := None;
             GetMemberOptions.force := None |})
    (Sample.world 1500 [[Sample.numbered 1]])
  = Some (Return Collection.empty, Sample.world 1500 [[Sample.numbered 1]]).
Proof.
  apply (getMembers_nothing_to_fetch Sample.GUILD_MEMBERS Sample.createMemberStruct
           Sample.id Sample.scripted {| intents := Sample.GUILD_MEMBERS |} "g"
           (Some {| GetMemberOptions.limit := Some 0; GetMemberOptions.after := None;
                    GetMemberOptions.force := None |})
           (Sample.world 1500 [[Sample.numbered 1]])
           (Sample.guild 1500) eq_refl eq_refl).
  simpl. lia.
Defined.


Lemma getMembers_single_page_witness :
  ∃ c w',
    getMembers Sample.GUILD_MEMBERS Sample.createMemberStruct Sample.id Sample.scripted
      {| intents := Sample.GUILD_MEMBERS |} "g" None
      (Sample.world 800 [[Sample.numbered 1]; [Sample.numbered 2]])
    = Some (Return c, w')
    ∧ sent_requests (trace w')
      = [ {| route_guildID := "g"; query_limit := 800; query_after := None |} ].
Proof.
  apply (getMembers_single_page Sample.GUILD_MEMBERS Sample.createMemberStruct
           Sample.id Sample.scripted {| intents := Sample.GUILD_MEMBERS |} "g" None
           (Sample.world 800 [[Sample.numbered 1]; [Sample.numbered 2]])
           (Sample.guild 800) eq_refl eq_refl).
  simpl. lia.
Defined.

Lemma getMember_caches_result_witness :
  let m := {| Sample.id := "7"; Sample.guildID := "h"; Sample.name := "n" |} in
  cached_members
    (getMember (PermissionError := string) Demo.RequestManager
       Demo.as_MemberCreatePayload Sample.createMemberStruct Sample.id
       (Sample.cache_of 10) "h" "7" (Some true)).1.2 !! "7"
  = Some m.
Proof.
  intros m.
  destruct (getMember_caches_result (PermissionError := string) Demo.RequestManager
              Demo.as_MemberCreatePayload Sample.createMemberStruct Sample.id
              (Sample.cache_of 10) "h" "7" (Some true) m eq_refl)
    as (_ & _ & H & _).
  exact H.
Defined.

Lemma getAuditLogs_limit_witness :
  let options := {| GetAuditLogsOptions.action_type := Some "GUILD_UPDATE";
                    GetAuditLogsOptions.limit := Some 500;
                    GetAuditLogsOptions.user_id := None;
                    GetAuditLogsOptions.before := None |} in
  ∃ query, spread query = options ∧ audit_limit query = 50.
Proof.
  intros options.
  destruct (getAuditLogs_limit Demo.all_permissions Demo.RequestManager
              Demo.AuditLogs_value "g" options _ (list_elem_of_here _ _))
    as (query & _ & Hs & _ & _ & H50).
  exists query. split; [exact Hs |].
  apply H50. intros n [= <-]. right. lia.
Defined.

Lemma getEmoji_cache_witness :
  ∃ guild',
    getEmoji (PermissionError := string) Demo.RequestManager Demo.as_Emoji
      Demo.guilds "g" "7" None
    = (Resolves {| emoji_id := None; emoji_name := "7" |},
       <["g" := guild']> Demo.guilds,
       [ {| method := GET; route := at_endpoint (GUILD_EMOJI "g" "7");
            payload := NoPayload |} ])
    ∧ Collection.get "7" (GuildStruct.emojis guild')
      = Some {| emoji_id := None; emoji_name := "7" |}.
Proof.
  destruct (getEmoji_cache (PermissionError := string) Demo.RequestManager
              Demo.as_Emoji Demo.guilds "g" "7" None ltac:(discriminate))
    as (guild' & Hr & Hget & _).
  exists guild'. split; [exact Hr | exact Hget].
Defined.
